(** * Ideathon front end: filtering, the authentication gate, the simulated
      asynchronous actions and the report preview.

    The pages of the client are React function components.  Each one is
    embedded here as the pure function it computes from its props, its
    [useState] cells and the imported fixture module, and each event handler
    as the state transformer (or, for the [async] handlers, the little
    program of effects and timer waits) that the source spells out. *)

From Stdlib Require Import List Bool NArith ZArith Lia String Ascii.
Import ListNotations.

Local Open Scope N_scope.

(* ================================================================== *)
(** ** JavaScript strings *)
(* ================================================================== *)

(** A JavaScript string is a finite sequence of UTF-16 code units. *)
Definition jsstring := list N.

(** String literals of the source, written with Basic Latin characters. *)
Definition js (s : string) : jsstring :=
  map N_of_ascii (list_ascii_of_string s).

(** [a === b] on two strings: same length, same code units. *)
Fixpoint strictEq (a b : jsstring) : bool :=
  match a, b with
  | [], [] => true
  | c :: a', d :: b' => N.eqb c d && strictEq a' b'
  | _, _ => false
  end.

(** Truthiness of a string: only the empty string is falsy. *)
Definition truthy (s : jsstring) : bool :=
  match s with [] => false | _ :: _ => true end.

(** Truthiness of a [string | null] (or optional string) value. *)
Definition truthyOpt (o : option jsstring) : bool :=
  match o with None => false | Some s => truthy s end.

(** [s.startsWith(q)]. *)
Fixpoint startsWith (s q : jsstring) {struct q} : bool :=
  match q, s with
  | [], _ => true
  | _ :: _, [] => false
  | c :: q', d :: s' => N.eqb c d && startsWith s' q'
  end.

(** [s.includes(q)]: [q] occurs in [s] at some position. *)
Fixpoint includes (s q : jsstring) : bool :=
  startsWith s q ||
  match s with
  | [] => false
  | _ :: s' => includes s' q
  end.

(** ECMAScript WhiteSpace and LineTerminator code points, the characters
    that [String.prototype.trim] strips. *)
Definition isWhiteSpace (c : N) : bool :=
  (9 <=? c) && (c <=? 13)
  || (c =? 32) || (c =? 160) || (c =? 5760)
  || (8192 <=? c) && (c <=? 8202)
  || (c =? 8232) || (c =? 8233) || (c =? 8239) || (c =? 8287)
  || (c =? 12288) || (c =? 65279).

Fixpoint trimStart (s : jsstring) : jsstring :=
  match s with
  | [] => []
  | c :: s' => if isWhiteSpace c then trimStart s' else s
  end.

Definition trimEnd (s : jsstring) : jsstring := rev (trimStart (rev s)).

(** [s.trim()]. *)
Definition trim (s : jsstring) : jsstring := trimEnd (trimStart s).

(** [String.prototype.toLowerCase] is the Unicode default lower-case
    mapping; the filters only need that it is a function on strings that
    leaves the empty string alone, so they are stated over this interface. *)
Class CaseMapping := {
  toLowerCase : jsstring -> jsstring;
  toLowerCase_empty : toLowerCase [] = []
}.

(** The mapping on Basic Latin text: [A]..[Z] go to [a]..[z], every other
    code unit below 128 is unchanged.  Used for the concrete runs. *)
Definition lowerLatin (c : N) : N :=
  if (65 <=? c) && (c <=? 90) then c + 32 else c.

#[export] Instance LatinCase : CaseMapping :=
  {| toLowerCase := map lowerLatin; toLowerCase_empty := eq_refl |}.

(* ================================================================== *)
(** ** Arrays *)
(* ================================================================== *)

(** [Array.prototype.filter]: one pass from index 0, keeping the elements
    on which the callback is true. *)
Fixpoint Array_filter {A : Type} (f : A -> bool) (xs : list A) : list A :=
  match xs with
  | [] => []
  | x :: xs' => if f x then x :: Array_filter f xs' else Array_filter f xs'
  end.

(** [xs] is a subsequence of [ys]: [ys] with some elements dropped, the
    others in their order. *)
Inductive subsequence {A : Type} : list A -> list A -> Prop :=
| sub_nil : subsequence [] []
| sub_skip : forall x xs ys, subsequence xs ys -> subsequence xs (x :: ys)
| sub_keep : forall x xs ys, subsequence xs ys -> subsequence (x :: xs) (x :: ys).

(* ================================================================== *)
(** ** Display records (the shapes of [@/lib/mockData]) *)
(* ================================================================== *)

(** Modelled from the spec: the type declarations of the fixture module
    [@/lib/mockData] are not among the sources; the fields are those the
    specification's data model lists and the pages read. *)
Record Template := mkTemplate {
  template_id : jsstring;
  template_name : jsstring;
  template_category : jsstring;
  template_description : jsstring
}.

Inductive ReportStatus := draft | published.

Record Report := mkReport {
  report_id : jsstring;
  report_title : jsstring;
  report_createdAt : jsstring;
  report_status : ReportStatus;
  report_template : option jsstring
}.

(** The state cell [statusFilter : 'all' | 'draft' | 'published']. *)
Inductive StatusFilter := all | only (s : ReportStatus).

Definition ReportStatus_eqb (a b : ReportStatus) : bool :=
  match a, b with
  | draft, draft | published, published => true
  | _, _ => false
  end.

(* ================================================================== *)
(** ** pages/Templates.tsx *)
(* ================================================================== *)

Module Templates.
Section Page.
Context {CM : CaseMapping}.
(** The fixture [mockTemplates]; its module is not part of the sources, so
    the page is a function of it. *)
Variable mockTemplates : list Template.

Definition matchesSearch (searchQuery : jsstring) (template : Template) : bool :=
  includes (toLowerCase (template_name template)) (toLowerCase searchQuery)
  || includes (toLowerCase (template_description template)) (toLowerCase searchQuery).

(** [template.category === selectedCategory] with [selectedCategory] a
    [string | null]. *)
Definition categoryIs (template : Template) (selectedCategory : option jsstring) : bool :=
  match selectedCategory with
  | None => false
  | Some c => strictEq (template_category template) c
  end.

(** [!selectedCategory || template.category === selectedCategory]. *)
Definition matchesCategory (selectedCategory : option jsstring) (template : Template) : bool :=
  negb (truthyOpt selectedCategory) || categoryIs template selectedCategory.

Definition filteredTemplates (searchQuery : jsstring)
  (selectedCategory : option jsstring) : list Template :=
  Array_filter
    (fun template =>
       matchesSearch searchQuery template && matchesCategory selectedCategory template)
    mockTemplates.

End Page.
End Templates.

(* ================================================================== *)
(** ** pages/MyReports.tsx *)
(* ================================================================== *)

Module MyReports.
Section Page.
Context {CM : CaseMapping}.
(** The fixture [mockReports]. *)
Variable mockReports : list Report.

Definition matchesSearch (searchQuery : jsstring) (report : Report) : bool :=
  includes (toLowerCase (report_title report)) (toLowerCase searchQuery).

(** [statusFilter === 'all' || report.status === statusFilter]. *)
Definition matchesStatus (statusFilter : StatusFilter) (report : Report) : bool :=
  match statusFilter with
  | all => true
  | only s => ReportStatus_eqb (report_status report) s
  end.

Definition filteredReports (searchQuery : jsstring)
  (statusFilter : StatusFilter) : list Report :=
  Array_filter
    (fun report =>
       matchesSearch searchQuery report && matchesStatus statusFilter report)
    mockReports.

End Page.
End MyReports.

(** The specification's reading of "contains the query as a case-insensitive
    substring": after lower-casing both, the query occurs in the text. *)
Definition containsCI {CM : CaseMapping} (text query : jsstring) : Prop :=
  exists pre post, toLowerCase text = pre ++ toLowerCase query ++ post.

(* ================================================================== *)
(** ** The browser event loop seen from one page *)
(* ================================================================== *)

(** How the promise returned by an [async] handler settles. *)
Inductive outcome := Fulfilled | Rejected.

Module EventLoop.
Section Loop.
Variables St Eff : Type.
(** What one synchronous statement of a handler does to the page. *)
Variable perform : Eff -> St -> St.

(** The statements an event handler of these pages is made of. *)
Inductive instr :=
| Do (e : Eff)
    (* a synchronous call: a state setter, [navigate] *)
| Await (ms : Z)
    (* [await new Promise((resolve) => setTimeout(resolve, ms))] *)
| SetTimeout (ms : Z) (callback : list Eff)
    (* [setTimeout(() => ..., ms)], not awaited *)
| Throw.
    (* an exception leaving the handler *)

(** A timer of the page: when it is due, what runs then, and whether that
    is the rest of an [async] function (whose promise settles at its end). *)
Record task := mkTask { due : Z; body : list instr; settles : bool }.

Record loop := mkLoop {
  ui : St;                    (* the [useState] cells (and the router log) *)
  clock : Z;                  (* milliseconds since the page was mounted *)
  timers : list task;         (* timers set and not yet fired, oldest first *)
  promises : list outcome     (* the handler promises settled so far *)
}.

Definition set_ui (f : St -> St) (l : loop) : loop :=
  mkLoop (f (ui l)) (clock l) (timers l) (promises l).

Definition add_timer (t : task) (l : loop) : loop :=
  mkLoop (ui l) (clock l) (timers l ++ [t]) (promises l).

Definition settle (o : outcome) (l : loop) : loop :=
  mkLoop (ui l) (clock l) (timers l) (promises l ++ [o]).

(** Run a handler body until it ends, throws, or suspends on an [await]. *)
Fixpoint exec (async : bool) (p : list instr) (l : loop) : loop :=
  match p with
  | [] => if async then settle Fulfilled l else l
  | Do e :: k => exec async k (set_ui (perform e) l)
  | Await ms :: k => add_timer (mkTask (clock l + ms) k async) l
  | SetTimeout ms callback :: k =>
      exec async k (add_timer (mkTask (clock l + ms) (map Do callback) false) l)
  | Throw :: _ => if async then settle Rejected l else l
  end.

(** The timer that fires next: the one due first, the older one on a tie;
    returned with the timers that stay. *)
Fixpoint pick (ts : list task) : option (task * list task) :=
  match ts with
  | [] => None
  | t :: ts' =>
      match pick ts' with
      | None => Some (t, [])
      | Some (m, rest) =>
          if (due t <=? due m)%Z then Some (t, ts') else Some (m, t :: rest)
      end
  end.

(** What can happen to a mounted page: the user does something, time
    passes, a due timer fires. *)
Inductive event (U : Type) :=
| UI (u : U)
| Advance (dt : Z)
| Fire.

Definition advance (dt : Z) (l : loop) : option loop :=
  if (0 <=? dt)%Z then Some (mkLoop (ui l) (clock l + dt) (timers l) (promises l))
  else None.

(** A timer never fires before it is due. *)
Definition fire (l : loop) : option loop :=
  match pick (timers l) with
  | Some (t, rest) =>
      if (due t <=? clock l)%Z
      then Some (exec (settles t) (body t)
                   (mkLoop (ui l) (clock l) rest (promises l)))
      else None
  | None => None
  end.

Section Page.
Variable U : Type.
(** The page's own event handlers; [None] when the event cannot be
    delivered (the control is disabled). *)
Variable dispatch : U -> loop -> option loop.

Definition step (e : event U) (l : loop) : option loop :=
  match e with
  | UI _ u => dispatch u l
  | Advance _ dt => advance dt l
  | Fire _ => fire l
  end.

Fixpoint run (es : list (event U)) (l : loop) : option loop :=
  match es with
  | [] => Some l
  | e :: es' =>
      match step e l with
      | Some l' => run es' l'
      | None => None
      end
  end.

End Page.
End Loop.

Arguments Do {Eff} e.
Arguments Await {Eff} ms.
Arguments SetTimeout {Eff} ms callback.
Arguments Throw {Eff}.
Arguments mkTask {Eff} due body settles.
Arguments due {Eff} t.
Arguments body {Eff} t.
Arguments settles {Eff} t.
Arguments mkLoop {St Eff} ui clock timers promises.
Arguments ui {St Eff} l.
Arguments clock {St Eff} l.
Arguments timers {St Eff} l.
Arguments promises {St Eff} l.
Arguments set_ui {St Eff} f l.
Arguments add_timer {St Eff} t l.
Arguments settle {St Eff} o l.
Arguments exec {St Eff} perform async p l.
Arguments pick {Eff} ts.
Arguments advance {St Eff} dt l.
Arguments fire {St Eff} perform l.
Arguments UI {U} u.
Arguments Advance {U} dt.
Arguments Fire {U}.
Arguments step {St Eff} perform {U} dispatch e l.
Arguments run {St Eff} perform {U} dispatch es l.

End EventLoop.
Import EventLoop.

(* ================================================================== *)
(** ** pages/CreateReport.tsx *)
(* ================================================================== *)

Module CreateReport.

Definition suggestions : list jsstring :=
  [ js "Generate a Q4 marketing performance report with campaign metrics and ROI analysis";
    js "Create an executive summary of our annual sales data with key insights";
    js "Analyze customer satisfaction survey results and identify improvement areas";
    js "Prepare a competitive market analysis for the enterprise software sector" ].

(** The two state cells, and the calls made to the router's [navigate]
    (target path and the prompt passed as location state), oldest first.
    The router unmounts the page once it has navigated; the model lets
    events go on after that, so a real session is a prefix of a modelled
    one. *)
Record state := mkState {
  prompt : jsstring;
  isGenerating : bool;
  navigated : list (jsstring * jsstring)
}.

Inductive effect :=
| SetPrompt (v : jsstring)
| SetIsGenerating (b : bool)
| Navigate (to statePrompt : jsstring).

Definition perform (e : effect) (s : state) : state :=
  match e with
  | SetPrompt v => mkState v (isGenerating s) (navigated s)
  | SetIsGenerating b => mkState (prompt s) b (navigated s)
  | Navigate to p => mkState (prompt s) (isGenerating s) (navigated s ++ [(to, p)])
  end.

(** [handleGenerate], closed over the [prompt] of the render it belongs to. *)
Definition handleGenerate (s : state) : list (instr effect) :=
  if negb (truthy (trim (prompt s))) then []
  else [ Do (SetIsGenerating true);
         Await 2000;
         Do (SetIsGenerating false);
         Do (Navigate (js "/reports/preview") (prompt s)) ].

Definition handleSuggestionClick (suggestion : jsstring) : effect :=
  SetPrompt suggestion.

(** [disabled={!prompt.trim() || isGenerating}]. *)
Definition generateDisabled (s : state) : bool :=
  negb (truthy (trim (prompt s))) || isGenerating s.

Inductive action :=
| Change (value : jsstring)          (* typing in the textarea *)
| ClickSuggestion (index : nat)
| ClickGenerate.

Definition page := loop state effect.

(** A disabled button delivers no click. *)
Definition dispatch (a : action) (l : page) : option page :=
  match a with
  | Change v => Some (set_ui (perform (SetPrompt v)) l)
  | ClickSuggestion i =>
      match nth_error suggestions i with
      | Some suggestion => Some (set_ui (perform (handleSuggestionClick suggestion)) l)
      | None => None
      end
  | ClickGenerate =>
      if generateDisabled (ui l) then None
      else Some (exec perform true (handleGenerate (ui l)) l)
  end.

Definition init : page := mkLoop (mkState [] false []) 0%Z [] [].

Definition step := EventLoop.step perform dispatch.
Definition run := EventLoop.run perform dispatch.

(** The clicks on the generate button among the events of a session. *)
Definition clicks (es : list (event action)) : nat :=
  List.length (filter (fun e => match e with UI ClickGenerate => true | _ => false end) es).

(** What is left of [handleGenerate] after its [await]. *)
Definition resume (p : jsstring) : list (instr effect) :=
  [ Do (SetIsGenerating false); Do (Navigate (js "/reports/preview") p) ].

End CreateReport.

(* ================================================================== *)
(** ** pages/ReportPreview.tsx *)
(* ================================================================== *)

(** Modelled from the spec: the type of [mockGeneratedReport], declared in
    [@/lib/mockData], is not among the sources; the fields are those the
    specification's data model lists and the page reads.  A table row is
    given by its own properties in enumeration order (what [Object.entries]
    returns), the values as [String(value)] prints them. *)
Record ReportSection := mkSection {
  section_id : jsstring;
  section_title : jsstring;
  section_type : jsstring;
  section_content : jsstring;
  section_data : option (list (list (jsstring * jsstring)))
}.

Record Citation := mkCitation {
  citation_id : jsstring;
  citation_source : jsstring;
  citation_excerpt : jsstring;
  citation_url : option jsstring
}.

Record GeneratedReport := mkGeneratedReport {
  executiveSummary : jsstring;
  sections : list ReportSection;
  citations : list Citation
}.

(** [xs.map((x, index) => f x index)] where the callback may throw. *)
Fixpoint Array_map_from {A B : Type} (f : A -> nat -> option B)
  (index : nat) (xs : list A) : option (list B) :=
  match xs with
  | [] => Some []
  | x :: xs' =>
      match f x index with
      | None => None
      | Some y =>
          match Array_map_from f (S index) xs' with
          | None => None
          | Some ys => Some (y :: ys)
          end
      end
  end.

Definition Array_map {A B : Type} (f : A -> nat -> option B) (xs : list A) :=
  Array_map_from f 0 xs.

Module ReportPreview.

Record state := mkState { isPublishing : bool; isPublished : bool }.

Inductive effect := SetIsPublishing (b : bool) | SetIsPublished (b : bool).

Definition perform (e : effect) (s : state) : state :=
  match e with
  | SetIsPublishing b => mkState b (isPublished s)
  | SetIsPublished b => mkState (isPublishing s) b
  end.

Definition handlePublish : list (instr effect) :=
  [ Do (SetIsPublishing true);
    Await 1500;
    Do (SetIsPublishing false);
    Do (SetIsPublished true) ].

(** [disabled={isPublishing || isPublished}]. *)
Definition publishDisabled (s : state) : bool :=
  isPublishing s || isPublished s.

(** The only control of the page with a handler. *)
Inductive action := ClickPublish.

Definition page := loop state effect.

Definition dispatch (a : action) (l : page) : option page :=
  match a with
  | ClickPublish =>
      if publishDisabled (ui l) then None
      else Some (exec perform true handlePublish l)
  end.

Definition init : page := mkLoop (mkState false false) 0%Z [] [].

Definition step := EventLoop.step perform dispatch.
Definition run := EventLoop.run perform dispatch.

Definition clicks (es : list (event action)) : nat :=
  List.length (filter (fun e => match e with UI ClickPublish => true | _ => false end) es).

(** What is left of [handlePublish] after its [await]. *)
Definition resume : list (instr effect) :=
  [ Do (SetIsPublishing false); Do (SetIsPublished true) ].

(** *** What the page draws of the report *)

Inductive icon := TableIcon | LightbulbIcon.

Record cell := mkCell {
  cell_key : jsstring;
  cell_className : jsstring;
  cell_text : jsstring
}.

Inductive cardBody :=
| TableBody (headers : list jsstring) (rows : list (list cell))
| Paragraph (content : jsstring).

Record sectionCard := mkCard {
  card_key : jsstring;
  card_index : nat;
  card_icon : icon;
  card_title : jsstring;
  card_body : cardBody
}.

Record citationItem := mkItem {
  item_key : jsstring;
  item_number : nat;
  item_link : option jsstring;
  item_source : jsstring;
  item_excerpt : jsstring;
  item_separator : bool
}.

(** The class of a table cell. *)
Definition cellClassName (cellIndex : nat) (value : jsstring) : jsstring :=
  (js "py-3 text-sm "
   ++ (if Nat.eqb cellIndex 0 then js "font-medium text-foreground"
       else js "text-muted-foreground")
   ++ js " "
   ++ (if startsWith value (js "+") then js "text-success"
       else if startsWith value (js "-") then js "text-destructive"
       else []))%list.

Fixpoint renderCells (cellIndex : nat) (row : list (jsstring * jsstring)) : list cell :=
  match row with
  | [] => []
  | (key, value) :: row' =>
      mkCell key (cellClassName cellIndex value) value :: renderCells (S cellIndex) row'
  end.

(** [Object.keys(section.data[0])]: a [TypeError] when there is no row. *)
Definition headerKeys (data : list (list (jsstring * jsstring))) : option (list jsstring) :=
  match data with
  | [] => None
  | first :: _ => Some (map fst first)
  end.

(** [section.type === 'table' && section.data]; an array is truthy, also
    an empty one. *)
Definition isTable (section : ReportSection) : bool :=
  strictEq (section_type section) (js "table")
  && match section_data section with Some _ => true | None => false end.

Definition renderBody (section : ReportSection) : option cardBody :=
  if isTable section then
    match section_data section with
    | Some data =>
        match headerKeys data with
        | Some keys => Some (TableBody keys (map (renderCells 0) data))
        | None => None
        end
    | None => Some (Paragraph (section_content section))
    end
  else Some (Paragraph (section_content section)).

Definition renderSection (section : ReportSection) (index : nat) : option sectionCard :=
  match renderBody section with
  | Some b =>
      Some (mkCard (section_id section) index
              (if strictEq (section_type section) (js "table") then TableIcon
               else LightbulbIcon)
              (section_title section) b)
  | None => None
  end.

(** [report.sections.map(...)]; [None] when the render throws. *)
Definition renderSections (report : GeneratedReport) : option (list sectionCard) :=
  Array_map renderSection (sections report).

Definition renderCitation (count : nat) (citation : Citation) (index : nat)
  : option citationItem :=
  Some (mkItem (citation_id citation) (index + 1)
          (if truthyOpt (citation_url citation) then citation_url citation else None)
          (citation_source citation) (citation_excerpt citation)
          (Nat.ltb (index + 1) count)).

(** [report.citations.map(...)]. *)
Definition renderCitations (report : GeneratedReport) : option (list citationItem) :=
  Array_map (renderCitation (List.length (citations report))) (citations report).

End ReportPreview.

(* ================================================================== *)
(** ** pages/Settings.tsx *)
(* ================================================================== *)

Module Settings.

Record state := mkState { isSaving : bool; saved : bool }.

Inductive effect := SetIsSaving (b : bool) | SetSaved (b : bool).

Definition perform (e : effect) (s : state) : state :=
  match e with
  | SetIsSaving b => mkState b (saved s)
  | SetSaved b => mkState (isSaving s) b
  end.

Definition handleSave : list (instr effect) :=
  [ Do (SetIsSaving true);
    Await 1000;
    Do (SetIsSaving false);
    Do (SetSaved true);
    SetTimeout 2000 [SetSaved false] ].

(** [disabled={isSaving}]. *)
Definition saveDisabled (s : state) : bool := isSaving s.

Inductive action := ClickSave.

Definition page := loop state effect.

Definition dispatch (a : action) (l : page) : option page :=
  match a with
  | ClickSave =>
      if saveDisabled (ui l) then None
      else Some (exec perform true handleSave l)
  end.

Definition init : page := mkLoop (mkState false false) 0%Z [] [].

Definition step := EventLoop.step perform dispatch.
Definition run := EventLoop.run perform dispatch.

(** What is left of [handleSave] after its [await]. *)
Definition resume : list (instr effect) :=
  [ Do (SetIsSaving false); Do (SetSaved true); SetTimeout 2000 [SetSaved false] ].

End Settings.

(* ================================================================== *)
(** ** components/layout/AppLayout.tsx and the routes of App.tsx *)
(* ================================================================== *)

Record User := mkUser {
  user_name : jsstring;
  user_email : jsstring;
  user_company : option jsstring
}.

(** Modelled from the spec: [@/contexts/AuthContext] is not among the
    sources; this is what [useAuth()] hands to the components that read it
    (its [login] and [logout] functions are left out). *)
Record AuthContext := mkAuth {
  user : option User;
  isAuthenticated : bool;
  isLoading : bool
}.

(** What a routed component returns: a router redirect, the application
    shell around its content, or bare content. *)
Inductive element (C : Type) :=
| NavigateTo (to : jsstring) (replace : bool)
| Shell (children : C)
| Bare (content : C).

Arguments NavigateTo {C} to replace.
Arguments Shell {C} children.
Arguments Bare {C} content.

Definition AppLayout {C : Type} (auth : AuthContext) (children : C) : element C :=
  if negb (isAuthenticated auth) then NavigateTo (js "/auth") true
  else Shell children.

(** The components of the route table. *)
Inductive Route :=
| Landing | Auth | Dashboard | CreateReportPage | ReportPreviewPage
| MyReportsPage | TemplatesPage | SettingsPage | NotFound.

(** The pages whose body is [<AppLayout> ... </AppLayout>]. *)
Definition wrapped (r : Route) : bool :=
  match r with
  | Dashboard | CreateReportPage | ReportPreviewPage
  | MyReportsPage | TemplatesPage | SettingsPage => true
  | Landing | Auth | NotFound => false
  end.

Definition renderRoute {C : Type} (r : Route) (auth : AuthContext) (content : C)
  : element C :=
  match r with
  | Landing | NotFound => Bare content
  | Auth =>
      if isAuthenticated auth then NavigateTo (js "/dashboard") true
      else Bare content
  | Dashboard | CreateReportPage | ReportPreviewPage
  | MyReportsPage | TemplatesPage | SettingsPage => AppLayout auth content
  end.

(* ================================================================== *)
(** ** Properties of sessions, and fixtures for concrete runs *)
(* ================================================================== *)

(** A prompt is blank when it is empty or made of white space only. *)
Definition blank (s : jsstring) : Prop := Forall (fun c => isWhiteSpace c = true) s.

(** The invariant of a [CreateReport] session after [n] clicks on the
    generate button: every click has either resolved (one fulfilled promise,
    one [navigate]) or is the one operation in flight, and the pending flag
    tells which. *)
Definition CreateReport_inv (n : nat) (l : CreateReport.page) : Prop :=
  Forall (eq Fulfilled) (promises l)
  /\ List.length (CreateReport.navigated (ui l)) = List.length (promises l)
  /\ n = (List.length (promises l) + List.length (timers l))%nat
  /\ ((CreateReport.isGenerating (ui l) = false /\ timers l = [])
      \/ (CreateReport.isGenerating (ui l) = true
          /\ exists d p, timers l = [mkTask d (CreateReport.resume p) true])).

(** The invariant of a [ReportPreview] session after [n] clicks on the
    publish button: idle, publishing, or published, in that order. *)
Definition ReportPreview_inv (n : nat) (l : ReportPreview.page) : Prop :=
  (n = 0%nat /\ ui l = ReportPreview.mkState false false
   /\ timers l = [] /\ promises l = [])
  \/ (n = 1%nat /\ ui l = ReportPreview.mkState true false
      /\ (exists d, timers l = [mkTask d ReportPreview.resume true])
      /\ promises l = [])
  \/ (n = 1%nat /\ ui l = ReportPreview.mkState false true
      /\ timers l = [] /\ promises l = [Fulfilled]).

(** The timers a [Settings] session can hold: what is left of [handleSave],
    or the callback that takes the "Saved" mark away. *)
Definition Settings_task (t : task Settings.effect) : Prop :=
  (body t = Settings.resume /\ settles t = true)
  \/ (body t = [Do (Settings.SetSaved false)] /\ settles t = false).

Definition Settings_inv (l : Settings.page) : Prop :=
  Forall (eq Fulfilled) (promises l) /\ Forall Settings_task (timers l).

(** An event that is not the firing of a timer. *)
Definition notFire {U : Type} (e : event U) : Prop :=
  match e with Fire => False | _ => True end.

(** A fixture of two templates and one of two reports for concrete runs. *)
Definition demoTemplates : list Template :=
  [ mkTemplate (js "1") (js "Quarterly Review") (js "Sales") (js "Pipeline and revenue");
    mkTemplate (js "2") (js "Campaign Recap") (js "Marketing") (js "Channel performance") ].

Definition demoReports : list Report :=
  [ mkReport (js "1") (js "Q4 Marketing Report") (js "2024-01-15") published None;
    mkReport (js "2") (js "Sales Summary") (js "2024-01-10") draft (Some (js "Sales")) ].

(** A fixture in which one template carries the empty category label. *)
Definition unlabelledTemplates : list Template :=
  [ mkTemplate (js "1") (js "Scratch") [] (js "No category yet");
    mkTemplate (js "2") (js "Quarterly Review") (js "Sales") (js "Pipeline and revenue") ].

(** A page whose prompt holds three spaces. *)
Definition blankPage : CreateReport.page :=
  mkLoop (CreateReport.mkState (js "   ") false []) 5%Z [] [].

(** What "pending, then resolved, exactly once per click" says of a page
    with one asynchronous action: [click] its control, [pending] its flag,
    [delay] the wait of its handler; [clicked] counts the clicks delivered
    since the page was mounted and [l] is the page now. *)
Section OncePerClick.
Context {St Eff U : Type}.
Variable perform : Eff -> St -> St.
Variable dispatch : U -> loop St Eff -> option (loop St Eff).
Variable click : U.
Variable pending : St -> bool.
Variable delay : Z.

(** The operations in flight: the timers set and not yet fired. *)
Definition inFlight (l : loop St Eff) : nat := List.length (timers l).

Definition oncePerClick (clicked : nat) (l : loop St Eff) : Prop :=
  (* at most one operation is in flight: one while pending, none otherwise *)
  inFlight l = (if pending (ui l) then 1 else 0)%nat
  (* each click so far has resolved exactly once, or is the one in flight *)
  /\ clicked = (List.length (promises l) + inFlight l)%nat
  /\ Forall (eq Fulfilled) (promises l)
  (* while pending the control is disabled: no click is delivered *)
  /\ (pending (ui l) = true -> step perform dispatch (UI click) l = None)
  (* a delivered click finds the page idle and makes it pending; it stays
     so until the timer fires, which it does only once the delay is over,
     and then the page is resolved *)
  /\ (forall l1, step perform dispatch (UI click) l = Some l1 ->
      pending (ui l) = false /\ pending (ui l1) = true
      /\ inFlight l1 = 1%nat /\ promises l1 = promises l
      /\ forall es l2, Forall notFire es -> run perform dispatch es l1 = Some l2 ->
         pending (ui l2) = true /\ timers l2 = timers l1 /\ promises l2 = promises l
         /\ (step perform dispatch Fire l2 = None <-> (clock l2 < clock l + delay)%Z)
         /\ forall l3, step perform dispatch Fire l2 = Some l3 ->
            pending (ui l3) = false /\ inFlight l3 = 0%nat
            /\ promises l3 = promises l ++ [Fulfilled])
  (* nothing cancels an operation: its timer leaves only by firing *)
  /\ (forall e l' t, step perform dispatch e l = Some l' -> In t (timers l) ->
      In t (timers l') \/ (e = Fire /\ (due t <= clock l)%Z)).

End OncePerClick.

(** What "a click starts the action" says of the same page: when its
    control is enabled ([ready]) the click is delivered, the page is pending,
    and the firing of the timer once the [delay] is over leaves it resolved;
    when the control is disabled no click is delivered. *)
Section StartsWhenReady.
Context {St Eff U : Type}.
Variable perform : Eff -> St -> St.
Variable dispatch : U -> loop St Eff -> option (loop St Eff).
Variable click : U.
Variable pending : St -> bool.
Variable ready : St -> bool.
Variable delay : Z.

Definition startsWhenReady (l : loop St Eff) : Prop :=
  (ready (ui l) = true ->
   exists l1 l3,
     step perform dispatch (UI click) l = Some l1
     /\ pending (ui l1) = true
     /\ run perform dispatch [Advance delay; Fire] l1 = Some l3
     /\ pending (ui l3) = false
     /\ List.length (timers l3) = 0%nat
     /\ promises l3 = promises l ++ [Fulfilled])
  /\ (ready (ui l) = false -> step perform dispatch (UI click) l = None).

End StartsWhenReady.

(** A generate page on which one report has been generated. *)
Definition generatedSession : list (event CreateReport.action) :=
  [UI (CreateReport.Change (js "Q4 report")); Advance 10;
   UI CreateReport.ClickGenerate; Advance 2000; Fire].

Definition generatedPage : CreateReport.page :=
  mkLoop
    (CreateReport.mkState (js "Q4 report") false
       [(js "/reports/preview", js "Q4 report")])
    2010%Z [] [Fulfilled].

(** Sessions for concrete runs: a prompt typed and ten milliseconds gone;
    a preview page left alone for a while; a preview page published. *)
Definition typedSession : list (event CreateReport.action) :=
  [UI (CreateReport.Change (js "Q4 report")); Advance 10].

Definition typedPage : CreateReport.page :=
  mkLoop (CreateReport.mkState (js "Q4 report") false []) 10%Z [] [].

Definition idleSession : list (event ReportPreview.action) := [Advance 7].

Definition idlePage : ReportPreview.page :=
  mkLoop (ReportPreview.mkState false false) 7%Z [] [].

Definition publishedSession : list (event ReportPreview.action) :=
  [Advance 7; UI ReportPreview.ClickPublish; Advance 1500; Fire].

Definition publishedPage : ReportPreview.page :=
  mkLoop (ReportPreview.mkState false true) 1507%Z [] [Fulfilled].

Definition generatingPage : CreateReport.page :=
  mkLoop (CreateReport.mkState (js "Q4 report") true []) 10%Z
    [mkTask 2010 (CreateReport.resume (js "Q4 report")) true] [].

Definition publishingPage : ReportPreview.page :=
  mkLoop (ReportPreview.mkState true false) 7%Z
    [mkTask 1507 ReportPreview.resume true] [].

Definition laterPage : ReportPreview.page :=
  mkLoop (ReportPreview.mkState false true) 1607%Z [] [Fulfilled].

(** A settings page saved once, the "Saved" mark still shown. *)
Definition savedSession : list (event Settings.action) :=
  [UI Settings.ClickSave; Advance 1000; Fire; Advance 500].

Definition savedPage : Settings.page :=
  mkLoop (Settings.mkState false true) 1500%Z
    [mkTask 3000 [Do (Settings.SetSaved false)] false] [Fulfilled].

(** A report whose one section is a table without rows, and one with a
    table, a narrative section and two citations. *)
Definition emptyTableReport : GeneratedReport :=
  mkGeneratedReport (js "Summary")
    [mkSection (js "s1") (js "Key Metrics") (js "table") [] (Some [])]
    [].

Definition demoReport : GeneratedReport :=
  mkGeneratedReport (js "Summary")
    [ mkSection (js "s1") (js "Key Metrics") (js "table") []
        (Some [ [(js "Metric", js "Revenue"); (js "Change", js "+12%")];
                [(js "Metric", js "Churn"); (js "Change", js "-3%")] ]);
      mkSection (js "s2") (js "Insights") (js "text") (js "Growth was strong.") None ]
    [ mkCitation (js "c1") (js "Internal CRM") (js "Pipeline data") None;
      mkCitation (js "c2") (js "Market Study") (js "Sector growth")
        (Some (js "https://example.com")) ].

(** A section the page can draw: if it is drawn as a table, it has a row. *)
Definition drawable (section : ReportSection) : Prop :=
  ReportPreview.isTable section = true -> section_data section <> Some [].

(* ================================================================== *)
(** ** More of the JavaScript the pages use *)
(* ================================================================== *)

(** The index arithmetic of [slice]: a negative index counts from the end,
    and every index is clamped to the length. *)
Definition relativeIndex (len i : Z) : Z :=
  if (i <? 0)%Z then Z.max (len + i) 0 else Z.min i len.

(** [xs.slice(start, end)] on arrays and strings; [end] may be left out. *)
Definition slice {A : Type} (xs : list A) (start : Z) (end_ : option Z) : list A :=
  let len := Z.of_nat (List.length xs) in
  let from := relativeIndex len start in
  let to := match end_ with None => len | Some e => relativeIndex len e end in
  firstn (Z.to_nat (to - from)) (skipn (Z.to_nat from) xs).


(** [s.split(sep)] for a separator of one code unit: never an empty array. *)
Fixpoint split (sep : N) (s : jsstring) : list jsstring :=
  match s with
  | [] => [[]]
  | c :: s' =>
      if c =? sep then [] :: split sep s'
      else match split sep s' with
           | w :: ws => (c :: w) :: ws
           | [] => [[c]]
           end
  end.

(** [value || fallback] where [value] is a string, [undefined] or [null]. *)
Definition orElse (value : option jsstring) (fallback : jsstring) : jsstring :=
  match value with
  | Some s => if truthy s then s else fallback
  | None => fallback
  end.

(** [xs.map((x, index) => f x index)] for a callback that cannot throw. *)
Fixpoint Array_mapi_from {A B : Type} (f : A -> nat -> B) (index : nat) (xs : list A)
  : list B :=
  match xs with
  | [] => []
  | x :: xs' => f x index :: Array_mapi_from f (S index) xs'
  end.

Definition Array_mapi {A B : Type} (f : A -> nat -> B) (xs : list A) : list B :=
  Array_mapi_from f 0 xs.

(** [[...new Set(xs)]]: the distinct strings of [xs], each at the place of
    its first occurrence. *)
Fixpoint Set_spread (seen xs : list jsstring) : list jsstring :=
  match xs with
  | [] => seen
  | x :: xs' =>
      if existsb (strictEq x) seen then Set_spread seen xs'
      else Set_spread (seen ++ [x]) xs'
  end.

(* ================================================================== *)
(** ** The rest of Templates.tsx and MyReports.tsx *)
(* ================================================================== *)

(** [categories], the labels of the category buttons. *)
Definition Templates_categories (mockTemplates : list Template) : list jsstring :=
  Set_spread [] (map template_category mockTemplates).

(** [filteredTemplates.length === 0 && (...)]: the "No templates found"
    block is drawn. *)
Definition Templates_showsEmptyState {CM : CaseMapping} (mockTemplates : list Template)
  (searchQuery : jsstring) (selectedCategory : option jsstring) : bool :=
  Nat.eqb
    (List.length (Templates.filteredTemplates mockTemplates searchQuery selectedCategory))
    0.

(** One line of the reports list. *)
Record reportRow := mkRow {
  row_key : jsstring;
  row_to : jsstring;                  (* the target of its two links *)
  row_title : jsstring;
  row_template : option jsstring;     (* the template name, when drawn *)
  row_status : ReportStatus;
  row_border : bool                   (* ['border-b border-border'] *)
}.

(** The callback of [filteredReports.map((report, index) => ...)]. *)
Definition MyReports_row (count : nat) (report : Report) (index : nat) : reportRow :=
  mkRow (report_id report)
    (js "/reports/" ++ report_id report)%list
    (report_title report)
    (if truthyOpt (report_template report) then report_template report else None)
    (report_status report)
    (negb (Nat.eqb index (count - 1))).

(** What the card of the list holds under its header. *)
Inductive reportsBody :=
| NoReportsFound
| Rows (rows : list reportRow).

(** [filteredReports.length === 0 ? (...) : filteredReports.map(...)]. *)
Definition MyReports_body {CM : CaseMapping} (mockReports : list Report)
  (searchQuery : jsstring) (statusFilter : StatusFilter) : reportsBody :=
  let filteredReports := MyReports.filteredReports mockReports searchQuery statusFilter in
  if Nat.eqb (List.length filteredReports) 0 then NoReportsFound
  else Rows (Array_mapi (MyReports_row (List.length filteredReports)) filteredReports).

(** The number in the header, [{filteredReports.length} Reports]. *)
Definition MyReports_count {CM : CaseMapping} (mockReports : list Report)
  (searchQuery : jsstring) (statusFilter : StatusFilter) : nat :=
  List.length (MyReports.filteredReports mockReports searchQuery statusFilter).

(* ================================================================== *)
(** ** The header and the publish button of ReportPreview.tsx *)
(* ================================================================== *)

(** [location.state?.prompt || 'Q4 2024 Enterprise Performance Analysis'];
    the argument is [location.state?.prompt]. *)
Definition ReportPreview_prompt (statePrompt : option jsstring) : jsstring :=
  orElse statePrompt (js "Q4 2024 Enterprise Performance Analysis").

(** [prompt.slice(0, 50)], the part of the prompt the header quotes. *)
Definition ReportPreview_excerpt (statePrompt : option jsstring) : jsstring :=
  slice (ReportPreview_prompt statePrompt) 0 (Some 50%Z).

Inductive publishIcon := Loader2 | Check | Share2.

Definition ReportPreview_icon (s : ReportPreview.state) : publishIcon :=
  if ReportPreview.isPublishing s then Loader2
  else if ReportPreview.isPublished s then Check
  else Share2.

Definition ReportPreview_label (s : ReportPreview.state) : jsstring :=
  if ReportPreview.isPublished s then js "Published" else js "Publish to SharePoint".

(* ================================================================== *)
(** ** The save button of Settings.tsx *)
(* ================================================================== *)

Inductive saveFace := Saving | SavedMark | SaveChanges.

(** [isSaving ? 'Saving...' : saved ? <>Saved</> : 'Save Changes']. *)
Definition Settings_face (s : Settings.state) : saveFace :=
  if Settings.isSaving s then Saving
  else if Settings.saved s then SavedMark
  else SaveChanges.

(** The saves in flight: the timers that hold the rest of [handleSave]. *)
Definition Settings_pendingSaves (l : Settings.page) : nat :=
  List.length (filter (fun t => settles t) (timers l)).

(** The invariant of a [Settings] session. *)
Definition Settings_inv_saves (l : Settings.page) : Prop :=
  Forall Settings_task (timers l)
  /\ Settings_pendingSaves l = (if Settings.isSaving (ui l) then 1 else 0)%nat
  /\ (Settings.saved (ui l) = true ->
      exists t, In t (timers l) /\ body t = [Do (Settings.SetSaved false)]).

(* ================================================================== *)
(** ** pages/Dashboard.tsx and components/layout/Sidebar.tsx *)
(* ================================================================== *)

Module DashboardPage.

(** [mockReports.slice(0, 3)]. *)
Definition recentReports (mockReports : list Report) : list Report :=
  slice mockReports 0 (Some 3%Z).

(** [user?.name?.split(' ')[0] || 'User'], the name of the greeting. *)
Definition welcomeName (auth : AuthContext) : jsstring :=
  orElse
    (match user auth with
     | None => None
     | Some u => nth_error (split 32 (user_name u)) 0
     end)
    (js "User").

End DashboardPage.

Module Sidebar.

(** The paths and labels of [navItems]. *)
Definition navItems : list (jsstring * jsstring) :=
  [ (js "/dashboard", js "Dashboard");
    (js "/create", js "Create New Report");
    (js "/reports", js "My Reports");
    (js "/templates", js "Templates");
    (js "/settings", js "Settings") ].

(** [location.pathname === item.path]. *)
Definition isActive (pathname : jsstring) (item : jsstring * jsstring) : bool :=
  strictEq pathname (fst item).




End Sidebar.

(** The component the route table of App.tsx gives for the two paths the
    application redirects to. *)
Definition redirectTarget (to : jsstring) : option Route :=
  if strictEq to (js "/auth") then Some Auth
  else if strictEq to (js "/dashboard") then Some Dashboard
  else None.

(** A session invariant of [CreateReport]: what has been and what will be
    passed to [navigate]. *)
Definition CreateReport_navigation_ok (to_p : jsstring * jsstring) : Prop :=
  fst to_p = js "/reports/preview" /\ truthy (trim (snd to_p)) = true.

Definition CreateReport_inv_prompts (l : CreateReport.page) : Prop :=
  Forall CreateReport_navigation_ok (CreateReport.navigated (ui l))
  /\ Forall (fun t => exists p, body t = CreateReport.resume p
                                /\ settles t = true
                                /\ truthy (trim p) = true)
       (timers l).

(* ================================================================== *)
(** ** Facts about strings and arrays *)
(* ================================================================== *)

Lemma strictEq_spec (a b : jsstring) : strictEq a b = true <-> a = b.
Proof.
  revert b; induction a as [|c a IH]; intros [|d b]; simpl; split;
    try congruence; try reflexivity.
  - intros H. apply andb_true_iff in H as [Hc Hr].
    apply N.eqb_eq in Hc. apply IH in Hr. congruence.
  - intros H. injection H as -> ->. rewrite N.eqb_refl. simpl. now apply IH.
Qed.

Lemma startsWith_spec (s q : jsstring) :
  startsWith s q = true <-> exists post, s = q ++ post.
Proof.
  revert s; induction q as [|c q IH]; intros s; simpl.
  - split; [intros _; now exists s | reflexivity].
  - destruct s as [|d s].
    + split; [discriminate | intros [post H]; discriminate].
    + rewrite andb_true_iff, N.eqb_eq, IH. split.
      * intros [-> [post ->]]. now exists post.
      * intros [post H]. injection H as -> ->. split; [reflexivity | now exists post].
Qed.

Lemma includes_spec (s q : jsstring) :
  includes s q = true <-> exists pre post, s = pre ++ q ++ post.
Proof.
  induction s as [|d s IH].
  - simpl. rewrite orb_false_r, startsWith_spec. split.
    + intros [post H]. now exists [], post.
    + intros [pre [post H]]. destruct pre; [now exists post | discriminate].
  - cbn [includes]. rewrite orb_true_iff, startsWith_spec, IH. split.
    + intros [[post H] | [pre [post H]]].
      * now exists [], post.
      * exists (d :: pre), post. simpl. now rewrite H.
    + intros [[|e pre] [post H]].
      * left. now exists post.
      * right. injection H as _ H. now exists pre, post.
Qed.

Lemma includes_empty (s : jsstring) : includes s [] = true.
Proof. destruct s; reflexivity. Qed.

Lemma Array_filter_filter {A} (f : A -> bool) (xs : list A) :
  Array_filter f xs = filter f xs.
Proof. induction xs as [|x xs IH]; simpl; [|rewrite IH]; reflexivity. Qed.

Lemma Array_filter_In {A} (f : A -> bool) (xs : list A) (x : A) :
  In x (Array_filter f xs) <-> In x xs /\ f x = true.
Proof. rewrite Array_filter_filter. apply filter_In. Qed.

Lemma Array_filter_subsequence {A} (f : A -> bool) (xs : list A) :
  subsequence (Array_filter f xs) xs.
Proof.
  induction xs as [|x xs IH]; simpl; [constructor|].
  destruct (f x); now constructor.
Qed.

Lemma Array_filter_all {A} (f : A -> bool) (xs : list A) :
  (forall x, In x xs -> f x = true) -> Array_filter f xs = xs.
Proof.
  induction xs as [|x xs IH]; simpl; intros H; [reflexivity|].
  rewrite (H x (or_introl eq_refl)). f_equal. apply IH. intros y Hy. apply H. now right.
Qed.

Lemma Array_filter_ext {A} (f g : A -> bool) (xs : list A) :
  (forall x, f x = g x) -> Array_filter f xs = Array_filter g xs.
Proof.
  intros H. induction xs as [|x xs IH]; simpl; [reflexivity|].
  now rewrite H, IH.
Qed.

Lemma Array_filter_and {A} (f g : A -> bool) (xs : list A) :
  Array_filter (fun x => f x && g x) xs = Array_filter g (Array_filter f xs).
Proof.
  induction xs as [|x xs IH]; simpl; [reflexivity|].
  destruct (f x); simpl; [destruct (g x)|]; now rewrite IH.
Qed.

Section FilterFacts.
Context {CM : CaseMapping}.

Lemma Templates_matchesSearch_spec (q : jsstring) (t : Template) :
  Templates.matchesSearch q t = true
  <-> containsCI (template_name t) q \/ containsCI (template_description t) q.
Proof.
  unfold Templates.matchesSearch, containsCI.
  now rewrite orb_true_iff, !includes_spec.
Qed.

Lemma MyReports_matchesSearch_spec (q : jsstring) (r : Report) :
  MyReports.matchesSearch q r = true <-> containsCI (report_title r) q.
Proof. unfold MyReports.matchesSearch, containsCI. apply includes_spec. Qed.

Lemma Templates_matchesSearch_empty (t : Template) :
  Templates.matchesSearch [] t = true.
Proof.
  unfold Templates.matchesSearch. now rewrite toLowerCase_empty, includes_empty.
Qed.

Lemma MyReports_matchesSearch_empty (r : Report) :
  MyReports.matchesSearch [] r = true.
Proof.
  unfold MyReports.matchesSearch. now rewrite toLowerCase_empty, includes_empty.
Qed.

End FilterFacts.

(* ================================================================== *)
(** ** Filtering the fixtures (Templates, MyReports) *)
(* ================================================================== *)

Example filteredTemplates_demo :
  map template_id (Templates.filteredTemplates demoTemplates (js "REVIEW") None)
  = [js "1"].
Proof. vm_compute. reflexivity. Qed.

Example filteredReports_demo :
  map report_id (MyReports.filteredReports demoReports (js "s") (only draft))
  = [js "2"].
Proof. vm_compute. reflexivity. Qed.

(** C1, as stated, fails: with a category (or a status) selected, a record
    that contains the query is left out.  Here the empty query, which every
    title contains, with the "Marketing" category and the "published"
    status. *)
Lemma C1_search_alone_counterexample :
  ~ (forall t, In t demoTemplates
               /\ (containsCI (template_name t) [] \/ containsCI (template_description t) [])
               -> In t (Templates.filteredTemplates demoTemplates [] (Some (js "Marketing"))))
  /\ ~ (forall r, In r demoReports /\ containsCI (report_title r) []
                  -> In r (MyReports.filteredReports demoReports [] (only published))).
Proof.
  split; intros H.
  - specialize (H (nth 0 demoTemplates (mkTemplate [] [] [] []))).
    assert (Hin : In (nth 0 demoTemplates (mkTemplate [] [] [] []))
                     (Templates.filteredTemplates demoTemplates [] (Some (js "Marketing")))).
    { apply H. split; [left; reflexivity|]. left. exists [], (js "quarterly review").
      vm_compute. reflexivity. }
    vm_compute in Hin. destruct Hin as [Hin | []]. discriminate Hin.
  - specialize (H (nth 1 demoReports (mkReport [] [] [] draft None))).
    assert (Hin : In (nth 1 demoReports (mkReport [] [] [] draft None))
                     (MyReports.filteredReports demoReports [] (only published))).
    { apply H. split; [right; left; reflexivity|]. exists [], (js "sales summary").
      vm_compute. reflexivity. }
    vm_compute in Hin. destruct Hin as [Hin | []]. discriminate Hin.
Qed.

(** C1 (amended): the filtered list holds exactly the records of the fixture
    that contain the query as a case-insensitive substring (name or
    description of a template, title of a report) and pass the category or
    status selection; it is the fixture filtered in one pass, and with no
    category selected, or the status filter 'all', it holds exactly the
    records that contain the query. *)
Theorem C1_filter_exact {CM : CaseMapping}
  (mockTemplates : list Template) (mockReports : list Report) (searchQuery : jsstring) :
  (forall selectedCategory t,
      In t (Templates.filteredTemplates mockTemplates searchQuery selectedCategory)
      <-> In t mockTemplates
          /\ (containsCI (template_name t) searchQuery
              \/ containsCI (template_description t) searchQuery)
          /\ Templates.matchesCategory selectedCategory t = true)
  /\ (forall statusFilter r,
      In r (MyReports.filteredReports mockReports searchQuery statusFilter)
      <-> In r mockReports
          /\ containsCI (report_title r) searchQuery
          /\ MyReports.matchesStatus statusFilter r = true)
  /\ (forall t,
      In t (Templates.filteredTemplates mockTemplates searchQuery None)
      <-> In t mockTemplates
          /\ (containsCI (template_name t) searchQuery
              \/ containsCI (template_description t) searchQuery))
  /\ (forall r,
      In r (MyReports.filteredReports mockReports searchQuery all)
      <-> In r mockReports /\ containsCI (report_title r) searchQuery)
  /\ (forall selectedCategory,
      Templates.filteredTemplates mockTemplates searchQuery selectedCategory
      = filter (fun t => Templates.matchesSearch searchQuery t
                         && Templates.matchesCategory selectedCategory t) mockTemplates)
  /\ (forall statusFilter,
      MyReports.filteredReports mockReports searchQuery statusFilter
      = filter (fun r => MyReports.matchesSearch searchQuery r
                         && MyReports.matchesStatus statusFilter r) mockReports).
Proof.
  unfold Templates.filteredTemplates, MyReports.filteredReports.
  repeat split; intros;
    try (rewrite Array_filter_In, andb_true_iff in *);
    try (rewrite Templates_matchesSearch_spec in * );
    try (rewrite MyReports_matchesSearch_spec in * );
    try tauto; try apply Array_filter_filter.
Qed.

(** The guard [!selectedCategory] is also true of the empty string: a
    selection that holds the empty label is taken for no selection. *)
Example empty_label_is_no_selection :
  ~ (forall t, In t (Templates.filteredTemplates unlabelledTemplates [] (Some []))
               -> template_category t = []).
Proof.
  intros H.
  specialize (H (nth 1 unlabelledTemplates (mkTemplate [] [] [] []))).
  assert (Hin : In (nth 1 unlabelledTemplates (mkTemplate [] [] [] []))
                   (Templates.filteredTemplates unlabelledTemplates [] (Some []))).
  { vm_compute. right. left. reflexivity. }
  apply H in Hin. vm_compute in Hin. discriminate Hin.
Qed.

(** C5: for every search query and every category [c] (a label, that is a
    string that is not empty, which is what [selectedCategory] holds when it
    is not [null]), selecting [c] restricts the filtered template list to
    the records whose category equals [c]; selecting "All Categories"
    ([null]) is the identity filter, the result being the list filtered by
    the search query alone. *)
Theorem C5_category_restricts {CM : CaseMapping}
  (mockTemplates : list Template) (searchQuery c : jsstring) (Hc : c <> []) :
  Templates.filteredTemplates mockTemplates searchQuery (Some c)
  = Array_filter (fun t => strictEq (template_category t) c)
      (Templates.filteredTemplates mockTemplates searchQuery None)
  /\ (forall t,
      In t (Templates.filteredTemplates mockTemplates searchQuery (Some c))
      <-> In t (Templates.filteredTemplates mockTemplates searchQuery None)
          /\ template_category t = c)
  /\ Templates.filteredTemplates mockTemplates searchQuery None
     = Array_filter (Templates.matchesSearch searchQuery) mockTemplates.
Proof.
  assert (Hnone : Templates.filteredTemplates mockTemplates searchQuery None
                  = Array_filter (Templates.matchesSearch searchQuery) mockTemplates).
  { unfold Templates.filteredTemplates. apply Array_filter_ext. intros t.
    unfold Templates.matchesCategory. simpl. apply andb_true_r. }
  assert (Hsome : Templates.filteredTemplates mockTemplates searchQuery (Some c)
                  = Array_filter (fun t => strictEq (template_category t) c)
                      (Templates.filteredTemplates mockTemplates searchQuery None)).
  { rewrite Hnone. unfold Templates.filteredTemplates.
    rewrite <- Array_filter_and. apply Array_filter_ext. intros t.
    unfold Templates.matchesCategory, Templates.categoryIs. simpl.
    destruct c as [|x c]; [contradiction|]. reflexivity. }
  split; [exact Hsome|]. split; [|exact Hnone].
  intros t. rewrite Hsome, Array_filter_In, strictEq_spec. tauto.
Qed.

Lemma C5_category_restricts_witness :
  js "Sales" <> []
  /\ map template_id (Templates.filteredTemplates demoTemplates (js "re") (Some (js "Sales")))
     = map template_id
         (Array_filter (fun t => strictEq (template_category t) (js "Sales"))
            (Templates.filteredTemplates demoTemplates (js "re") None)).
Proof.
  split; [discriminate|].
  rewrite (proj1 (C5_category_restricts demoTemplates (js "re") (js "Sales")
                    ltac:(discriminate))).
  reflexivity.
Defined.

(** C10: whatever the query and the selection, the filtered list is a
    subsequence of the fixture in its original order; with the empty query
    and no category selected, or the status filter 'all', it is the whole
    fixture. *)
Theorem C10_filter_order_identity {CM : CaseMapping}
  (mockTemplates : list Template) (mockReports : list Report) :
  (forall searchQuery selectedCategory,
      subsequence (Templates.filteredTemplates mockTemplates searchQuery selectedCategory)
        mockTemplates)
  /\ (forall searchQuery statusFilter,
      subsequence (MyReports.filteredReports mockReports searchQuery statusFilter)
        mockReports)
  /\ Templates.filteredTemplates mockTemplates [] None = mockTemplates
  /\ MyReports.filteredReports mockReports [] all = mockReports.
Proof.
  repeat split; intros.
  - apply Array_filter_subsequence.
  - apply Array_filter_subsequence.
  - apply Array_filter_all. intros t _.
    now rewrite Templates_matchesSearch_empty.
  - apply Array_filter_all. intros r _.
    now rewrite MyReports_matchesSearch_empty.
Qed.

(* ================================================================== *)
(** ** The authentication gate *)
(* ================================================================== *)

(** C3: every view wrapped in [AppLayout] renders, when the session flag
    [isAuthenticated] is false, the redirect to [/auth] in place of its
    content; and [AppLayout] consults nothing but that flag: two contexts
    that agree on it (whatever user or loading state they carry) give the
    same result. *)
Theorem C3_gate_redirects {C : Type} (r : Route) (auth : AuthContext) (content : C)
  (Hwrapped : wrapped r = true) (Hflag : isAuthenticated auth = false) :
  renderRoute r auth content = NavigateTo (js "/auth") true
  /\ AppLayout auth content = NavigateTo (js "/auth") true
  /\ (forall auth' : AuthContext,
        isAuthenticated auth' = isAuthenticated auth ->
        AppLayout auth' content = AppLayout auth content).
Proof.
  assert (Hlayout : AppLayout auth content = NavigateTo (js "/auth") true).
  { unfold AppLayout. now rewrite Hflag. }
  split; [|split].
  - destruct r; simpl in Hwrapped; try discriminate; exact Hlayout.
  - exact Hlayout.
  - intros auth' Heq. unfold AppLayout. now rewrite Heq.
Qed.

Lemma C3_gate_redirects_witness :
  wrapped TemplatesPage = true
  /\ isAuthenticated (mkAuth (Some (mkUser (js "Ada") (js "ada@example.com") None)) false true)
     = false
  /\ renderRoute TemplatesPage
       (mkAuth (Some (mkUser (js "Ada") (js "ada@example.com") None)) false true)
       demoTemplates
     = NavigateTo (js "/auth") true.
Proof.
  split; [reflexivity|]. split; [reflexivity|].
  exact (proj1 (C3_gate_redirects TemplatesPage
                  (mkAuth (Some (mkUser (js "Ada") (js "ada@example.com") None)) false true)
                  demoTemplates eq_refl eq_refl)).
Defined.

(* ================================================================== *)
(** ** Blank prompts *)
(* ================================================================== *)

Lemma trimStart_nil_iff (s : jsstring) : trimStart s = [] <-> blank s.
Proof.
  unfold blank. induction s as [|c s IH]; simpl.
  - split; [constructor | reflexivity].
  - destruct (isWhiteSpace c) eqn:Hc.
    + rewrite IH. split; [now constructor | now inversion 1].
    + split; [discriminate | inversion 1; congruence].
Qed.

Lemma trimStart_head (s : jsstring) :
  trimStart s = [] \/ exists c k, trimStart s = c :: k /\ isWhiteSpace c = false.
Proof.
  induction s as [|c s IH]; simpl; [now left|].
  destruct (isWhiteSpace c) eqn:Hc; [exact IH|].
  right. now exists c, s.
Qed.

Lemma trim_nil_iff (s : jsstring) : trim s = [] <-> blank s.
Proof.
  unfold trim, trimEnd. split.
  - intros H. apply trimStart_nil_iff.
    assert (Hrev : trimStart (rev (trimStart s)) = []).
    { apply (f_equal (@rev N)) in H. now rewrite rev_involutive in H. }
    apply trimStart_nil_iff in Hrev.
    destruct (trimStart_head s) as [Hnil | [c [k [Hs Hc]]]]; [exact Hnil|].
    exfalso. rewrite Hs in Hrev. unfold blank in Hrev.
    rewrite Forall_forall in Hrev.
    specialize (Hrev c). rewrite <- in_rev in Hrev.
    rewrite Hrev in Hc; [discriminate | now left].
  - intros H. apply trimStart_nil_iff in H. now rewrite H.
Qed.

Lemma truthy_trim_false_iff (s : jsstring) : truthy (trim s) = false <-> blank s.
Proof.
  rewrite <- trim_nil_iff. destruct (trim s); simpl; split; congruence.
Qed.

Example trim_demo : trim (js "  Q4 report ") = js "Q4 report".
Proof. vm_compute. reflexivity. Qed.

(** C8: with an empty or white-space-only prompt [handleGenerate] has
    nothing to run: it returns before the pending flag is set, before any
    timer is set and before [navigate], so the page is as it was (only the
    handler's own promise is fulfilled); and the generate button is disabled
    for such a prompt, so no click reaches the handler. *)
Theorem C8_blank_prompt_noop (l : CreateReport.page)
  (Hblank : blank (CreateReport.prompt (ui l))) :
  CreateReport.handleGenerate (ui l) = []
  /\ exec CreateReport.perform true (CreateReport.handleGenerate (ui l)) l
     = settle Fulfilled l
  /\ ui (exec CreateReport.perform true (CreateReport.handleGenerate (ui l)) l) = ui l
  /\ timers (exec CreateReport.perform true (CreateReport.handleGenerate (ui l)) l)
     = timers l
  /\ CreateReport.generateDisabled (ui l) = true
  /\ CreateReport.step (UI CreateReport.ClickGenerate) l = None.
Proof.
  apply truthy_trim_false_iff in Hblank.
  assert (Hh : CreateReport.handleGenerate (ui l) = []).
  { unfold CreateReport.handleGenerate. now rewrite Hblank. }
  assert (Hd : CreateReport.generateDisabled (ui l) = true).
  { unfold CreateReport.generateDisabled. now rewrite Hblank. }
  rewrite Hh. repeat split; try reflexivity; try exact Hd.
  unfold CreateReport.step. simpl. now rewrite Hd.
Qed.

Lemma C8_blank_prompt_noop_witness :
  blank (CreateReport.prompt (ui blankPage))
  /\ CreateReport.step (UI CreateReport.ClickGenerate) blankPage = None.
Proof.
  assert (Hb : blank (CreateReport.prompt (ui blankPage))).
  { repeat constructor. }
  split; [exact Hb|].
  exact (proj2 (proj2 (proj2 (proj2 (proj2 (C8_blank_prompt_noop blankPage Hb)))))).
Defined.

(* ================================================================== *)
(** ** Facts about the event loop *)
(* ================================================================== *)

Section LoopFacts.
Context {St Eff : Type} (perform : Eff -> St -> St).

Lemma exec_keeps_timers (async : bool) (p : list (instr Eff)) :
  forall (l : loop St Eff) t, In t (timers l) -> In t (timers (exec perform async p l)).
Proof.
  induction p as [|i k IH]; intros l t Hin; simpl.
  - destruct async; exact Hin.
  - destruct i as [e | ms | ms cb | ].
    + apply IH. exact Hin.
    + simpl. apply in_or_app. now left.
    + apply IH. simpl. apply in_or_app. now left.
    + destruct async; exact Hin.
Qed.

Lemma pick_In (ts : list (task Eff)) :
  forall m rest, pick ts = Some (m, rest) ->
  forall t, In t ts <-> t = m \/ In t rest.
Proof.
  induction ts as [|a ts IH]; intros m rest Hp t; simpl in Hp; [discriminate|].
  destruct (pick ts) as [[m' rest']|] eqn:Hts.
  - specialize (IH m' rest' eq_refl t).
    destruct (due a <=? due m')%Z; injection Hp as <- <-; simpl.
    + split; [intros [H|H]; [left; congruence | now right] |
              intros [H|H]; [left; congruence | now right]].
    + rewrite IH. split.
      * intros [H | [H | H]]; [right; left; exact H | now left | right; right; exact H].
      * intros [H | [H | H]]; [right; now left | left; exact H | right; right; exact H].
  - injection Hp as <- <-. destruct ts as [|b ts].
    + simpl. split; [intros [H|[]]; left; congruence | intros [H|[]]; left; congruence].
    + simpl in Hts. destruct (pick ts) as [[m' rest']|]; [|discriminate].
      destruct (due b <=? due m')%Z; discriminate.
Qed.

Lemma pick_length (ts : list (task Eff)) :
  forall m rest, pick ts = Some (m, rest) -> List.length ts = S (List.length rest).
Proof.
  induction ts as [|a ts IH]; intros m rest Hp; simpl in Hp; [discriminate|].
  destruct (pick ts) as [[m' rest']|] eqn:Hts.
  - specialize (IH m' rest' eq_refl).
    destruct (due a <=? due m')%Z; injection Hp as <- <-; simpl; lia.
  - injection Hp as <- <-. destruct ts as [|b ts]; [reflexivity|].
    simpl in Hts. destruct (pick ts) as [[m' rest']|]; [|discriminate].
    destruct (due b <=? due m')%Z; discriminate.
Qed.

Lemma pick_some (ts : list (task Eff)) :
  ts <> [] -> exists m rest, pick ts = Some (m, rest).
Proof.
  destruct ts as [|a ts]; [congruence|]. intros _. simpl.
  destruct (pick ts) as [[m' rest']|]; [|now eexists _, _].
  destruct (due a <=? due m')%Z; now eexists _, _.
Qed.

(** No timer is ever cancelled: a timer leaves the list only by firing,
    and it fires only once it is due. *)
Lemma fire_keeps_or_due (l l' : loop St Eff) (t : task Eff) :
  fire perform l = Some l' -> In t (timers l) ->
  In t (timers l') \/ (due t <= clock l)%Z.
Proof.
  unfold fire. destruct (pick (timers l)) as [[m rest]|] eqn:Hp; [|discriminate].
  destruct (due m <=? clock l)%Z eqn:Hdue; [|discriminate].
  intros H Hin. injection H as <-.
  apply (pick_In _ _ _ Hp) in Hin. destruct Hin as [-> | Hin].
  - right. now apply Z.leb_le.
  - left. apply exec_keeps_timers. exact Hin.
Qed.

Lemma advance_some (dt : Z) (l l' : loop St Eff) :
  advance dt l = Some l' ->
  (0 <= dt)%Z /\ l' = mkLoop (ui l) (clock l + dt) (timers l) (promises l).
Proof.
  unfold advance. destruct (0 <=? dt)%Z eqn:H; [|discriminate].
  intros E. injection E as <-. split; [now apply Z.leb_le | reflexivity].
Qed.

End LoopFacts.

(* ================================================================== *)
(** ** Sessions of the CreateReport page *)
(* ================================================================== *)

Lemma CreateReport_click (l l' : CreateReport.page) :
  CreateReport.step (UI CreateReport.ClickGenerate) l = Some l' ->
  CreateReport.generateDisabled (ui l) = false
  /\ CreateReport.handleGenerate (ui l)
     = [ Do (CreateReport.SetIsGenerating true);
         Await 2000;
         Do (CreateReport.SetIsGenerating false);
         Do (CreateReport.Navigate (js "/reports/preview") (CreateReport.prompt (ui l))) ]
  /\ l' = mkLoop
            (CreateReport.mkState (CreateReport.prompt (ui l)) true
               (CreateReport.navigated (ui l)))
            (clock l)
            (timers l
             ++ [mkTask (clock l + 2000) (CreateReport.resume (CreateReport.prompt (ui l)))
                   true])
            (promises l).
Proof.
  unfold CreateReport.step. simpl.
  destruct (CreateReport.generateDisabled (ui l)) eqn:Hd; [discriminate|].
  intros H. injection H as <-.
  unfold CreateReport.generateDisabled in Hd. apply orb_false_iff in Hd as [Ht _].
  unfold CreateReport.handleGenerate. rewrite Ht.
  repeat split; reflexivity.
Qed.

Lemma CreateReport_fire_resume (l l' : CreateReport.page) (d : Z) (p : jsstring) :
  timers l = [mkTask d (CreateReport.resume p) true] ->
  (CreateReport.step Fire l = Some l'
   <-> (d <= clock l)%Z
       /\ l' = mkLoop
                 (CreateReport.mkState (CreateReport.prompt (ui l)) false
                    (CreateReport.navigated (ui l) ++ [(js "/reports/preview", p)]))
                 (clock l) [] (promises l ++ [Fulfilled])).
Proof.
  intros Ht. unfold CreateReport.step. simpl. unfold fire. rewrite Ht. simpl.
  destruct (d <=? clock l)%Z eqn:Hd.
  - apply Z.leb_le in Hd. split.
    + intros H. injection H as <-. split; [exact Hd | reflexivity].
    + intros [_ ->]. reflexivity.
  - apply Z.leb_gt in Hd. split; [discriminate | intros [H _]; lia].
Qed.

Lemma CreateReport_inv_step (n : nat) (e : event CreateReport.action)
  (l l' : CreateReport.page) :
  CreateReport_inv n l -> CreateReport.step e l = Some l' ->
  CreateReport_inv (CreateReport.clicks [e] + n) l'.
Proof.
  intros (Hp & Hnav & Hn & Hflag) Hstep.
  destruct e as [[v | i | ] | dt | ].
  - (* typing *)
    unfold CreateReport.step in Hstep. simpl in Hstep. injection Hstep as <-.
    unfold CreateReport_inv. simpl. auto.
  - (* a suggestion *)
    unfold CreateReport.step in Hstep. simpl in Hstep.
    destruct (nth_error CreateReport.suggestions i); [|discriminate].
    injection Hstep as <-. unfold CreateReport_inv. simpl. auto.
  - (* the generate button *)
    apply CreateReport_click in Hstep as (Hd & _ & ->).
    unfold CreateReport.generateDisabled in Hd. apply orb_false_iff in Hd as [_ Hg].
    destruct Hflag as [[_ Ht] | [Hg' _]]; [|congruence].
    unfold CreateReport_inv. simpl. rewrite Ht in *. simpl in *.
    repeat split; auto; [lia|]. right. split; [reflexivity|]. now eexists _, _.
  - (* time passes *)
    apply advance_some in Hstep as [_ ->].
    unfold CreateReport_inv. simpl. auto.
  - (* the timer fires *)
    destruct Hflag as [[_ Ht] | [_ (d & p & Ht)]].
    + unfold CreateReport.step in Hstep. simpl in Hstep. unfold fire in Hstep.
      rewrite Ht in Hstep. discriminate.
    + apply (CreateReport_fire_resume _ _ _ _ Ht) in Hstep as [_ ->].
      unfold CreateReport_inv. simpl. rewrite Ht in Hn. simpl in Hn.
      rewrite !length_app. simpl.
      repeat split; auto; try lia.
      apply Forall_app. split; [exact Hp | repeat constructor].
Qed.

Lemma CreateReport_clicks_cons (e : event CreateReport.action) es :
  CreateReport.clicks (e :: es) = (CreateReport.clicks [e] + CreateReport.clicks es)%nat.
Proof. unfold CreateReport.clicks. simpl. destruct e as [[ | | ] | | ]; reflexivity. Qed.

Lemma CreateReport_inv_run (es : list (event CreateReport.action)) :
  forall (n : nat) (l l' : CreateReport.page),
  CreateReport_inv n l -> CreateReport.run es l = Some l' ->
  CreateReport_inv (CreateReport.clicks es + n) l'.
Proof.
  induction es as [|e es IH]; intros n l l' Hinv Hrun.
  - injection Hrun as <-. exact Hinv.
  - unfold CreateReport.run in Hrun. simpl in Hrun.
    destruct (EventLoop.step CreateReport.perform CreateReport.dispatch e l)
      as [l1|] eqn:Hstep; [|discriminate].
    apply (CreateReport_inv_step n) in Hstep; [|exact Hinv].
    apply (IH _ _ _ Hstep) in Hrun.
    rewrite CreateReport_clicks_cons.
    replace (CreateReport.clicks [e] + CreateReport.clicks es + n)%nat
      with (CreateReport.clicks es + (CreateReport.clicks [e] + n))%nat by lia.
    exact Hrun.
Qed.

Lemma CreateReport_inv_init : CreateReport_inv 0 CreateReport.init.
Proof. unfold CreateReport_inv. simpl. repeat split; auto. Qed.

Lemma CreateReport_reachable_inv (es : list (event CreateReport.action)) l :
  CreateReport.run es CreateReport.init = Some l ->
  CreateReport_inv (CreateReport.clicks es) l.
Proof.
  intros H. apply (CreateReport_inv_run es 0) in H; [|apply CreateReport_inv_init].
  now rewrite Nat.add_0_r in H.
Qed.

(** No event of the page cancels a timer. *)
Lemma CreateReport_no_cancel (e : event CreateReport.action) (l l' : CreateReport.page)
  (t : task CreateReport.effect) :
  CreateReport.step e l = Some l' -> In t (timers l) ->
  In t (timers l') \/ (e = Fire /\ (due t <= clock l)%Z).
Proof.
  intros Hstep Hin. destruct e as [[v | i | ] | dt | ].
  - unfold CreateReport.step in Hstep. simpl in Hstep. injection Hstep as <-. now left.
  - unfold CreateReport.step in Hstep. simpl in Hstep.
    destruct (nth_error CreateReport.suggestions i); [|discriminate].
    injection Hstep as <-. now left.
  - apply CreateReport_click in Hstep as (_ & _ & ->). left. simpl.
    apply in_or_app. now left.
  - apply advance_some in Hstep as [_ ->]. now left.
  - unfold CreateReport.step in Hstep. simpl in Hstep.
    destruct (fire_keeps_or_due _ _ _ t Hstep Hin); [now left | right; now split].
Qed.

(** While the operation is in flight and until its timer fires, the page
    stays pending whatever the user types and however long it takes. *)
Lemma CreateReport_pending_stable (es : list (event CreateReport.action)) :
  forall (l l' : CreateReport.page) d p,
  timers l = [mkTask d (CreateReport.resume p) true] ->
  CreateReport.isGenerating (ui l) = true ->
  Forall notFire es ->
  CreateReport.run es l = Some l' ->
  timers l' = timers l
  /\ CreateReport.isGenerating (ui l') = true
  /\ CreateReport.navigated (ui l') = CreateReport.navigated (ui l)
  /\ promises l' = promises l
  /\ (clock l <= clock l')%Z.
Proof.
  induction es as [|e es IH]; intros l l' d p Ht Hg Hnf Hrun.
  - injection Hrun as <-. repeat split; auto; lia.
  - unfold CreateReport.run in Hrun. simpl in Hrun.
    destruct (EventLoop.step CreateReport.perform CreateReport.dispatch e l)
      as [l1|] eqn:Hstep; [|discriminate].
    inversion Hnf as [|? ? Hne Hnf']; subst.
    assert (H1 : timers l1 = timers l
                 /\ CreateReport.isGenerating (ui l1) = true
                 /\ CreateReport.navigated (ui l1) = CreateReport.navigated (ui l)
                 /\ promises l1 = promises l /\ (clock l <= clock l1)%Z).
    { destruct e as [[v | i | ] | dt | ]; simpl in Hstep.
      - injection Hstep as <-. simpl. repeat split; auto; lia.
      - destruct (nth_error CreateReport.suggestions i); [|discriminate].
        injection Hstep as <-. simpl. repeat split; auto; lia.
      - unfold CreateReport.generateDisabled in Hstep. rewrite Hg in Hstep.
        rewrite orb_true_r in Hstep. discriminate.
      - apply advance_some in Hstep as [Hdt ->]. simpl. repeat split; auto; lia.
      - contradiction. }
    destruct H1 as (Ht1 & Hg1 & Hn1 & Hp1 & Hc1).
    rewrite Ht in Ht1.
    destruct (IH l1 l' d p Ht1 Hg1 Hnf' Hrun) as (Ht2 & Hg2 & Hn2 & Hp2 & Hc2).
    repeat split; try congruence. lia.
Qed.

(* ================================================================== *)
(** ** Sessions of the ReportPreview page *)
(* ================================================================== *)

Lemma ReportPreview_click (l l' : ReportPreview.page) :
  ReportPreview.step (UI ReportPreview.ClickPublish) l = Some l' ->
  ReportPreview.publishDisabled (ui l) = false
  /\ l' = mkLoop
            (ReportPreview.mkState true (ReportPreview.isPublished (ui l)))
            (clock l)
            (timers l ++ [mkTask (clock l + 1500) ReportPreview.resume true])
            (promises l).
Proof.
  unfold ReportPreview.step. simpl.
  destruct (ReportPreview.publishDisabled (ui l)) eqn:Hd; [discriminate|].
  intros H. injection H as <-. split; reflexivity.
Qed.

Lemma ReportPreview_fire_resume (l l' : ReportPreview.page) (d : Z) :
  timers l = [mkTask d ReportPreview.resume true] ->
  (ReportPreview.step Fire l = Some l'
   <-> (d <= clock l)%Z
       /\ l' = mkLoop (ReportPreview.mkState false true) (clock l) []
                 (promises l ++ [Fulfilled])).
Proof.
  intros Ht. unfold ReportPreview.step. simpl. unfold fire. rewrite Ht. simpl.
  destruct (d <=? clock l)%Z eqn:Hd.
  - apply Z.leb_le in Hd. split.
    + intros H. injection H as <-. split; [exact Hd | reflexivity].
    + intros [_ ->]. reflexivity.
  - apply Z.leb_gt in Hd. split; [discriminate | intros [H _]; lia].
Qed.

Lemma ReportPreview_inv_step (n : nat) (e : event ReportPreview.action)
  (l l' : ReportPreview.page) :
  ReportPreview_inv n l -> ReportPreview.step e l = Some l' ->
  ReportPreview_inv (ReportPreview.clicks [e] + n) l'.
Proof.
  intros Hinv Hstep. destruct e as [[] | dt | ].
  - (* the publish button *)
    apply ReportPreview_click in Hstep as (Hd & ->).
    destruct Hinv as [(-> & Hui & Ht & Hp) | [(-> & Hui & Ht & Hp) | (-> & Hui & Ht & Hp)]];
      rewrite Hui in Hd; try discriminate Hd.
    right; left. simpl. rewrite Hui, Ht, Hp. simpl.
    repeat split. now eexists.
  - (* time passes *)
    apply advance_some in Hstep as [_ ->].
    destruct Hinv as [(-> & Hui & Ht & Hp) | [(-> & Hui & Ht & Hp) | (-> & Hui & Ht & Hp)]].
    + left. simpl. auto.
    + right; left. simpl. auto.
    + right; right. simpl. auto.
  - (* the timer fires *)
    destruct Hinv as [(-> & Hui & Ht & Hp) | [(-> & Hui & (d & Ht) & Hp) | (-> & Hui & Ht & Hp)]].
    + unfold ReportPreview.step in Hstep. simpl in Hstep. unfold fire in Hstep.
      rewrite Ht in Hstep. discriminate.
    + apply (ReportPreview_fire_resume _ _ _ Ht) in Hstep as [_ ->].
      right; right. simpl. rewrite Hp. auto.
    + unfold ReportPreview.step in Hstep. simpl in Hstep. unfold fire in Hstep.
      rewrite Ht in Hstep. discriminate.
Qed.

Lemma ReportPreview_clicks_cons (e : event ReportPreview.action) es :
  ReportPreview.clicks (e :: es)
  = (ReportPreview.clicks [e] + ReportPreview.clicks es)%nat.
Proof. unfold ReportPreview.clicks. simpl. destruct e as [[] | | ]; reflexivity. Qed.

Lemma ReportPreview_inv_run (es : list (event ReportPreview.action)) :
  forall (n : nat) (l l' : ReportPreview.page),
  ReportPreview_inv n l -> ReportPreview.run es l = Some l' ->
  ReportPreview_inv (ReportPreview.clicks es + n) l'.
Proof.
  induction es as [|e es IH]; intros n l l' Hinv Hrun.
  - injection Hrun as <-. exact Hinv.
  - unfold ReportPreview.run in Hrun. simpl in Hrun.
    destruct (EventLoop.step ReportPreview.perform ReportPreview.dispatch e l)
      as [l1|] eqn:Hstep; [|discriminate].
    apply (ReportPreview_inv_step n) in Hstep; [|exact Hinv].
    apply (IH _ _ _ Hstep) in Hrun.
    rewrite ReportPreview_clicks_cons.
    replace (ReportPreview.clicks [e] + ReportPreview.clicks es + n)%nat
      with (ReportPreview.clicks es + (ReportPreview.clicks [e] + n))%nat by lia.
    exact Hrun.
Qed.

Lemma ReportPreview_reachable_inv (es : list (event ReportPreview.action)) l :
  ReportPreview.run es ReportPreview.init = Some l ->
  ReportPreview_inv (ReportPreview.clicks es) l.
Proof.
  intros H. apply (ReportPreview_inv_run es 0) in H.
  - now rewrite Nat.add_0_r in H.
  - left. repeat split.
Qed.

Lemma ReportPreview_no_cancel (e : event ReportPreview.action) (l l' : ReportPreview.page)
  (t : task ReportPreview.effect) :
  ReportPreview.step e l = Some l' -> In t (timers l) ->
  In t (timers l') \/ (e = Fire /\ (due t <= clock l)%Z).
Proof.
  intros Hstep Hin. destruct e as [[] | dt | ].
  - apply ReportPreview_click in Hstep as (_ & ->). left. simpl.
    apply in_or_app. now left.
  - apply advance_some in Hstep as [_ ->]. now left.
  - unfold ReportPreview.step in Hstep. simpl in Hstep.
    destruct (fire_keeps_or_due _ _ _ t Hstep Hin); [now left | right; now split].
Qed.

Lemma ReportPreview_pending_stable (es : list (event ReportPreview.action)) :
  forall (l l' : ReportPreview.page) d,
  timers l = [mkTask d ReportPreview.resume true] ->
  ReportPreview.isPublishing (ui l) = true ->
  Forall notFire es ->
  ReportPreview.run es l = Some l' ->
  timers l' = timers l /\ ui l' = ui l /\ promises l' = promises l
  /\ (clock l <= clock l')%Z.
Proof.
  induction es as [|e es IH]; intros l l' d Ht Hg Hnf Hrun.
  - injection Hrun as <-. repeat split; auto; lia.
  - unfold ReportPreview.run in Hrun. simpl in Hrun.
    destruct (EventLoop.step ReportPreview.perform ReportPreview.dispatch e l)
      as [l1|] eqn:Hstep; [|discriminate].
    inversion Hnf as [|? ? Hne Hnf']; subst.
    assert (H1 : timers l1 = timers l /\ ui l1 = ui l
                 /\ promises l1 = promises l /\ (clock l <= clock l1)%Z).
    { destruct e as [[] | dt | ]; simpl in Hstep.
      - unfold ReportPreview.publishDisabled in Hstep. rewrite Hg in Hstep.
        discriminate.
      - apply advance_some in Hstep as [Hdt ->]. simpl. repeat split; auto; lia.
      - contradiction. }
    destruct H1 as (Ht1 & Hu1 & Hp1 & Hc1).
    rewrite Ht in Ht1. rewrite <- Hu1 in Hg.
    destruct (IH l1 l' d Ht1 Hg Hnf' Hrun) as (Ht2 & Hu2 & Hp2 & Hc2).
    repeat split; try congruence. lia.
Qed.

(** Once published, the page stays published and idle. *)
Lemma ReportPreview_published_stable (es : list (event ReportPreview.action)) :
  forall (l l' : ReportPreview.page),
  ui l = ReportPreview.mkState false true -> timers l = [] ->
  ReportPreview.run es l = Some l' ->
  ui l' = ui l /\ timers l' = [] /\ promises l' = promises l
  /\ ReportPreview.clicks es = 0%nat /\ Forall (fun e => exists dt, e = Advance dt) es.
Proof.
  induction es as [|e es IH]; intros l l' Hui Ht Hrun.
  - injection Hrun as <-. repeat split; auto.
  - unfold ReportPreview.run in Hrun. simpl in Hrun.
    destruct (EventLoop.step ReportPreview.perform ReportPreview.dispatch e l)
      as [l1|] eqn:Hstep; [|discriminate].
    destruct e as [[] | dt | ]; simpl in Hstep.
    + rewrite Hui in Hstep. discriminate.
    + apply advance_some in Hstep as [Hdt ->].
      destruct (IH (mkLoop (ui l) (clock l + dt) (timers l) (promises l)) l'
                  Hui Ht Hrun) as (H1 & H2 & H3 & H4 & H5).
      simpl in *. repeat split; auto. constructor; [now exists dt | exact H5].
    + unfold fire in Hstep. rewrite Ht in Hstep. discriminate.
Qed.

(* ================================================================== *)
(** ** One generate, one publish, from click to resolution *)
(* ================================================================== *)

(** From the click to the firing of its timer, with whatever typing and
    waiting in between. *)
Lemma CreateReport_cycle (l l1 l2 : CreateReport.page)
  (es : list (event CreateReport.action)) :
  timers l = [] ->
  CreateReport.step (UI CreateReport.ClickGenerate) l = Some l1 ->
  Forall notFire es -> CreateReport.run es l1 = Some l2 ->
  CreateReport.isGenerating (ui l2) = true
  /\ timers l2 = [mkTask (clock l + 2000)
                    (CreateReport.resume (CreateReport.prompt (ui l))) true]
  /\ CreateReport.navigated (ui l2) = CreateReport.navigated (ui l)
  /\ promises l2 = promises l
  /\ (clock l <= clock l2)%Z
  /\ (CreateReport.step Fire l2 = None <-> (clock l2 < clock l + 2000)%Z)
  /\ ((clock l + 2000 <= clock l2)%Z ->
      CreateReport.step Fire l2
      = Some (mkLoop
                (CreateReport.mkState (CreateReport.prompt (ui l2)) false
                   (CreateReport.navigated (ui l)
                    ++ [(js "/reports/preview", CreateReport.prompt (ui l))]))
                (clock l2) [] (promises l ++ [Fulfilled]))).
Proof.
  intros Ht Hclick Hnf Hrun.
  apply CreateReport_click in Hclick as (_ & _ & ->). rewrite Ht in Hrun. simpl in Hrun.
  eapply CreateReport_pending_stable in Hrun; [|reflexivity|reflexivity|exact Hnf].
  simpl in Hrun. destruct Hrun as (Ht2 & Hg2 & Hn2 & Hp2 & Hc2).
  pose proof (fun l3 => CreateReport_fire_resume l2 l3 _ _ Ht2) as Hfire.
  repeat split; auto.
  - intros Hnone. destruct (Z.lt_ge_cases (clock l2) (clock l + 2000)) as [|Hge]; [assumption|].
    exfalso. specialize (Hfire (mkLoop
                (CreateReport.mkState (CreateReport.prompt (ui l2)) false
                   (CreateReport.navigated (ui l2)
                    ++ [(js "/reports/preview", CreateReport.prompt (ui l))]))
                (clock l2) [] (promises l2 ++ [Fulfilled]))).
    rewrite Hnone in Hfire. destruct Hfire as [_ Hfire].
    discriminate Hfire. split; [exact Hge | reflexivity].
  - intros Hlt. destruct (CreateReport.step Fire l2) as [l3|] eqn:Hs; [|reflexivity].
    destruct (proj1 (Hfire l3) eq_refl) as [Hge _]. lia.
  - intros Hge. apply Hfire. split; [exact Hge|]. now rewrite Hn2, Hp2.
Qed.

Lemma ReportPreview_cycle (l l1 l2 : ReportPreview.page)
  (es : list (event ReportPreview.action)) :
  timers l = [] ->
  ReportPreview.step (UI ReportPreview.ClickPublish) l = Some l1 ->
  Forall notFire es -> ReportPreview.run es l1 = Some l2 ->
  ui l2 = ReportPreview.mkState true (ReportPreview.isPublished (ui l))
  /\ timers l2 = [mkTask (clock l + 1500) ReportPreview.resume true]
  /\ promises l2 = promises l
  /\ (clock l <= clock l2)%Z
  /\ (ReportPreview.step Fire l2 = None <-> (clock l2 < clock l + 1500)%Z)
  /\ ((clock l + 1500 <= clock l2)%Z ->
      ReportPreview.step Fire l2
      = Some (mkLoop (ReportPreview.mkState false true) (clock l2) []
                (promises l ++ [Fulfilled]))).
Proof.
  intros Ht Hclick Hnf Hrun.
  apply ReportPreview_click in Hclick as (_ & ->). rewrite Ht in Hrun. simpl in Hrun.
  eapply ReportPreview_pending_stable in Hrun; [|reflexivity|reflexivity|exact Hnf].
  simpl in Hrun. destruct Hrun as (Ht2 & Hu2 & Hp2 & Hc2).
  pose proof (fun l3 => ReportPreview_fire_resume l2 l3 _ Ht2) as Hfire.
  repeat split; auto.
  - intros Hnone. destruct (Z.lt_ge_cases (clock l2) (clock l + 1500)) as [|Hge]; [assumption|].
    exfalso. specialize (Hfire (mkLoop (ReportPreview.mkState false true) (clock l2) []
                (promises l2 ++ [Fulfilled]))).
    rewrite Hnone in Hfire. destruct Hfire as [_ Hfire].
    discriminate Hfire. split; [exact Hge | reflexivity].
  - intros Hlt. destruct (ReportPreview.step Fire l2) as [l3|] eqn:Hs; [|reflexivity].
    destruct (proj1 (Hfire l3) eq_refl) as [Hge _]. lia.
  - intros Hge. apply Hfire. split; [exact Hge|]. now rewrite Hp2.
Qed.

Lemma CreateReport_enabled_idle (es : list (event CreateReport.action)) l l1 :
  CreateReport.run es CreateReport.init = Some l ->
  CreateReport.step (UI CreateReport.ClickGenerate) l = Some l1 ->
  CreateReport.isGenerating (ui l) = false /\ timers l = [].
Proof.
  intros Hrun Hclick. apply CreateReport_reachable_inv in Hrun as (_ & _ & _ & Hflag).
  apply CreateReport_click in Hclick as (Hd & _).
  unfold CreateReport.generateDisabled in Hd. apply orb_false_iff in Hd as [_ Hg].
  destruct Hflag as [[_ Ht] | [Hg' _]]; [now split | congruence].
Qed.

Lemma ReportPreview_enabled_idle (es : list (event ReportPreview.action)) l l1 :
  ReportPreview.run es ReportPreview.init = Some l ->
  ReportPreview.step (UI ReportPreview.ClickPublish) l = Some l1 ->
  ui l = ReportPreview.mkState false false /\ timers l = [] /\ promises l = [].
Proof.
  intros Hrun Hclick. apply ReportPreview_reachable_inv in Hrun.
  apply ReportPreview_click in Hclick as (Hd & _).
  destruct Hrun as [(_ & Hui & Ht & Hp) | [(_ & Hui & _) | (_ & Hui & _)]];
    rewrite Hui in Hd; try discriminate Hd. auto.
Qed.

(* ================================================================== *)
(** ** The claims on the simulated actions *)
(* ================================================================== *)

Example typedSession_runs : CreateReport.run typedSession CreateReport.init = Some typedPage.
Proof. reflexivity. Qed.

Example publishedSession_runs :
  ReportPreview.run publishedSession ReportPreview.init = Some publishedPage.
Proof. reflexivity. Qed.

(** C2: in every state a session of the generate page, or of the preview
    page, can reach: a click that is delivered finds the action not pending,
    makes it pending, and the page stays pending until the one timer of the
    click fires, which resolves it; the number of clicks is the number of
    resolutions plus the operation in flight, so each click resolves exactly
    once; while pending the control is disabled and a click is not
    delivered; at most one operation is in flight; and no event removes a
    timer other than by firing it.  And a click does start the action: with
    the control enabled (a prompt that is not blank and no generation
    pending; neither publishing nor published) the click is delivered, the
    page is pending, and the firing of the timer after 2000 ms (1500 ms)
    leaves it resolved with the handler's promise fulfilled; with the
    control disabled no click is delivered. *)
Theorem C2_once_per_click
  (esG : list (event CreateReport.action)) (lG : CreateReport.page)
  (esP : list (event ReportPreview.action)) (lP : ReportPreview.page)
  (HG : CreateReport.run esG CreateReport.init = Some lG)
  (HP : ReportPreview.run esP ReportPreview.init = Some lP) :
  oncePerClick CreateReport.perform CreateReport.dispatch CreateReport.ClickGenerate
    CreateReport.isGenerating 2000 (CreateReport.clicks esG) lG
  /\ oncePerClick ReportPreview.perform ReportPreview.dispatch ReportPreview.ClickPublish
       ReportPreview.isPublishing 1500 (ReportPreview.clicks esP) lP
  /\ startsWhenReady CreateReport.perform CreateReport.dispatch CreateReport.ClickGenerate
       CreateReport.isGenerating
       (fun s => truthy (trim (CreateReport.prompt s))
                 && negb (CreateReport.isGenerating s))
       2000 lG
  /\ startsWhenReady ReportPreview.perform ReportPreview.dispatch ReportPreview.ClickPublish
       ReportPreview.isPublishing
       (fun s => negb (ReportPreview.isPublishing s)
                 && negb (ReportPreview.isPublished s))
       1500 lP.
Proof.
  split; [|split; [|split]].
  - pose proof (CreateReport_reachable_inv _ _ HG) as (Hp & Hnav & Hn & Hflag).
    unfold oncePerClick, inFlight. repeat apply conj.
    + destruct Hflag as [[-> ->] | [-> (d & p & ->)]]; reflexivity.
    + exact Hn.
    + exact Hp.
    + intros Hg. simpl. unfold CreateReport.generateDisabled. rewrite Hg.
      now rewrite orb_true_r.
    + intros l1 Hclick.
      destruct (CreateReport_enabled_idle _ _ _ HG Hclick) as [Hg Ht].
      pose proof (CreateReport_click _ _ Hclick) as (_ & _ & Hl1).
      rewrite Ht in Hl1. simpl in Hl1.
      split; [exact Hg|]. split; [now rewrite Hl1|]. split; [now rewrite Hl1|].
      split; [now rewrite Hl1|].
      intros es l2 Hnf Hrun.
      destruct (CreateReport_cycle _ _ _ _ Ht Hclick Hnf Hrun)
        as (Hg2 & Ht2 & Hn2 & Hp2 & Hc2 & Hnone & Hsome).
      split; [exact Hg2|]. split; [now rewrite Ht2, Hl1|]. split; [exact Hp2|].
      split; [exact Hnone|].
      intros l3 Hfire.
      assert (Hge : (clock lG + 2000 <= clock l2)%Z).
      { destruct (Z.lt_ge_cases (clock l2) (clock lG + 2000)) as [Hlt|]; [|assumption].
        apply Hnone in Hlt. unfold CreateReport.step in Hlt. congruence. }
      apply Hsome in Hge. unfold CreateReport.step in Hge.
      rewrite Hge in Hfire. injection Hfire as <-. simpl. auto.
    + intros e l' t. apply CreateReport_no_cancel.
  - pose proof (ReportPreview_reachable_inv _ _ HP) as Hinv.
    unfold oncePerClick, inFlight. repeat apply conj.
    + destruct Hinv as [(_ & -> & -> & _) | [(_ & -> & (d & ->) & _) | (_ & -> & -> & _)]];
        reflexivity.
    + destruct Hinv as [(-> & _ & -> & ->) | [(-> & _ & (d & ->) & ->) | (-> & _ & -> & ->)]];
        reflexivity.
    + destruct Hinv as [(_ & _ & _ & ->) | [(_ & _ & _ & ->) | (_ & _ & _ & ->)]];
        repeat constructor.
    + intros Hg. simpl. unfold ReportPreview.publishDisabled. now rewrite Hg.
    + intros l1 Hclick.
      destruct (ReportPreview_enabled_idle _ _ _ HP Hclick) as (Hui & Ht & Hp).
      pose proof (ReportPreview_click _ _ Hclick) as (_ & Hl1).
      rewrite Ht in Hl1. simpl in Hl1.
      split; [now rewrite Hui|]. split; [now rewrite Hl1|]. split; [now rewrite Hl1|].
      split; [now rewrite Hl1|].
      intros es l2 Hnf Hrun.
      destruct (ReportPreview_cycle _ _ _ _ Ht Hclick Hnf Hrun)
        as (Hu2 & Ht2 & Hp2 & Hc2 & Hnone & Hsome).
      split; [now rewrite Hu2|]. split; [now rewrite Ht2, Hl1|]. split; [exact Hp2|].
      split; [exact Hnone|].
      intros l3 Hfire.
      assert (Hge : (clock lP + 1500 <= clock l2)%Z).
      { destruct (Z.lt_ge_cases (clock l2) (clock lP + 1500)) as [Hlt|]; [|assumption].
        apply Hnone in Hlt. unfold ReportPreview.step in Hlt. congruence. }
      apply Hsome in Hge. unfold ReportPreview.step in Hge.
      rewrite Hge in Hfire. injection Hfire as <-. simpl. auto.
    + intros e l' t. apply ReportPreview_no_cancel.
  - pose proof (CreateReport_reachable_inv _ _ HG) as (_ & _ & _ & Hflag).
    unfold startsWhenReady. split; intros Hready.
    + apply andb_true_iff in Hready as [Hprompt Hidle].
      apply negb_true_iff in Hidle.
      destruct Hflag as [[_ Ht] | [Hg _]]; [|congruence].
      destruct lG as [[p g nav] c ts ps]. simpl in *. subst g ts.
      unfold CreateReport.generateDisabled, CreateReport.handleGenerate. simpl.
      rewrite Hprompt. simpl.
      eexists. eexists. split; [reflexivity|]. split; [reflexivity|].
      unfold fire. simpl. rewrite Z.leb_refl. simpl.
      split; [reflexivity|]. repeat split.
    + simpl. unfold CreateReport.generateDisabled.
      apply andb_false_iff in Hready as [Hprompt | Hbusy].
      * now rewrite Hprompt.
      * apply negb_false_iff in Hbusy. rewrite Hbusy. now rewrite orb_true_r.
  - pose proof (ReportPreview_reachable_inv _ _ HP) as Hinv.
    unfold startsWhenReady. split; intros Hready.
    + destruct Hinv as [(_ & Hui & Ht & Hp) | [(_ & Hui & _) | (_ & Hui & _)]];
        rewrite Hui in Hready; try discriminate Hready.
      destruct lP as [u c ts ps]. simpl in *. subst u ts ps.
      eexists. eexists. split; [reflexivity|]. split; [reflexivity|].
      unfold fire. simpl. rewrite Z.leb_refl. simpl.
      split; [reflexivity|]. repeat split.
    + simpl. unfold ReportPreview.publishDisabled.
      destruct (ReportPreview.isPublishing (ui lP)); [reflexivity|].
      destruct (ReportPreview.isPublished (ui lP)); [reflexivity | discriminate].
Qed.

Example generatedSession_runs :
  CreateReport.run generatedSession CreateReport.init = Some generatedPage.
Proof. reflexivity. Qed.

Lemma C2_once_per_click_witness :
  CreateReport.run generatedSession CreateReport.init = Some generatedPage
  /\ ReportPreview.run publishedSession ReportPreview.init = Some publishedPage
  /\ CreateReport.clicks generatedSession = 1%nat
  /\ oncePerClick CreateReport.perform CreateReport.dispatch CreateReport.ClickGenerate
       CreateReport.isGenerating 2000 1 generatedPage
  /\ oncePerClick ReportPreview.perform ReportPreview.dispatch ReportPreview.ClickPublish
       ReportPreview.isPublishing 1500 1 publishedPage
  /\ exists l1 l3,
       CreateReport.step (UI CreateReport.ClickGenerate) generatedPage = Some l1
       /\ CreateReport.isGenerating (ui l1) = true
       /\ CreateReport.run [Advance 2000; Fire] l1 = Some l3
       /\ CreateReport.isGenerating (ui l3) = false
       /\ List.length (timers l3) = 0%nat
       /\ promises l3 = promises generatedPage ++ [Fulfilled].
Proof.
  pose proof (C2_once_per_click generatedSession generatedPage
                publishedSession publishedPage eq_refl eq_refl)
    as (HG & HP & [Hready _] & _).
  repeat (split; [reflexivity|]). split; [exact HG|]. split; [exact HP|].
  exact (Hready eq_refl).
Defined.

(** C6: a delivered click on the generate button sets [isGenerating], and
    sets one timer due 2000 ms later; until that timer fires (and it cannot
    fire earlier) the page is pending and nothing has been navigated; its
    firing clears [isGenerating] and navigates to [/reports/preview] with
    the prompt the click was made with, and leaves everything else as it
    was.  A delivered click on the publish button sets [isPublishing] and
    one timer due 1500 ms later, whose firing clears [isPublishing] and sets
    [isPublished].  Both handlers are the straight-line programs spelled out
    here: no second attempt, no failing statement, no statement that clears
    a timer. *)
Theorem C6_fixed_delay_flags
  (esG : list (event CreateReport.action)) (lG l1G : CreateReport.page)
  (esP : list (event ReportPreview.action)) (lP l1P : ReportPreview.page)
  (HG : CreateReport.run esG CreateReport.init = Some lG)
  (HclickG : CreateReport.step (UI CreateReport.ClickGenerate) lG = Some l1G)
  (HP : ReportPreview.run esP ReportPreview.init = Some lP)
  (HclickP : ReportPreview.step (UI ReportPreview.ClickPublish) lP = Some l1P) :
  (CreateReport.handleGenerate (ui lG)
   = [ Do (CreateReport.SetIsGenerating true);
       Await 2000;
       Do (CreateReport.SetIsGenerating false);
       Do (CreateReport.Navigate (js "/reports/preview") (CreateReport.prompt (ui lG))) ]
   /\ l1G = mkLoop
              (CreateReport.mkState (CreateReport.prompt (ui lG)) true
                 (CreateReport.navigated (ui lG)))
              (clock lG)
              [mkTask (clock lG + 2000)
                 [ Do (CreateReport.SetIsGenerating false);
                   Do (CreateReport.Navigate (js "/reports/preview")
                         (CreateReport.prompt (ui lG))) ]
                 true]
              (promises lG)
   /\ forall es l2, Forall notFire es -> CreateReport.run es l1G = Some l2 ->
      CreateReport.isGenerating (ui l2) = true
      /\ CreateReport.navigated (ui l2) = CreateReport.navigated (ui lG)
      /\ ((clock l2 < clock lG + 2000)%Z -> CreateReport.step Fire l2 = None)
      /\ ((clock lG + 2000 <= clock l2)%Z ->
          CreateReport.step Fire l2
          = Some (mkLoop
                    (CreateReport.mkState (CreateReport.prompt (ui l2)) false
                       (CreateReport.navigated (ui lG)
                        ++ [(js "/reports/preview", CreateReport.prompt (ui lG))]))
                    (clock l2) [] (promises lG ++ [Fulfilled]))))
  /\ (ReportPreview.handlePublish
      = [ Do (ReportPreview.SetIsPublishing true);
          Await 1500;
          Do (ReportPreview.SetIsPublishing false);
          Do (ReportPreview.SetIsPublished true) ]
      /\ ui lP = ReportPreview.mkState false false
      /\ l1P = mkLoop (ReportPreview.mkState true false) (clock lP)
                 [mkTask (clock lP + 1500)
                    [ Do (ReportPreview.SetIsPublishing false);
                      Do (ReportPreview.SetIsPublished true) ]
                    true]
                 []
      /\ forall es l2, Forall notFire es -> ReportPreview.run es l1P = Some l2 ->
         ui l2 = ReportPreview.mkState true false
         /\ ((clock l2 < clock lP + 1500)%Z -> ReportPreview.step Fire l2 = None)
         /\ ((clock lP + 1500 <= clock l2)%Z ->
             ReportPreview.step Fire l2
             = Some (mkLoop (ReportPreview.mkState false true) (clock l2) []
                       [Fulfilled]))).
Proof.
  split.
  - destruct (CreateReport_enabled_idle _ _ _ HG HclickG) as [Hg Ht].
    pose proof (CreateReport_click _ _ HclickG) as (_ & Hh & Hl1).
    rewrite Ht in Hl1. simpl in Hl1.
    split; [exact Hh|]. split; [exact Hl1|].
    intros es l2 Hnf Hrun.
    destruct (CreateReport_cycle _ _ _ _ Ht HclickG Hnf Hrun)
      as (Hg2 & Ht2 & Hn2 & Hp2 & Hc2 & Hnone & Hsome).
    repeat split; auto. apply Hnone.
  - destruct (ReportPreview_enabled_idle _ _ _ HP HclickP) as (Hui & Ht & Hp).
    pose proof (ReportPreview_click _ _ HclickP) as (_ & Hl1).
    rewrite Ht, Hp, Hui in Hl1. simpl in Hl1.
    split; [reflexivity|]. split; [exact Hui|]. split; [exact Hl1|].
    intros es l2 Hnf Hrun.
    destruct (ReportPreview_cycle _ _ _ _ Ht HclickP Hnf Hrun)
      as (Hu2 & Ht2 & Hp2 & Hc2 & Hnone & Hsome).
    rewrite Hui in Hu2. rewrite Hp in Hsome.
    repeat split; auto. apply Hnone.
Qed.

Lemma C6_fixed_delay_flags_witness :
  CreateReport.run typedSession CreateReport.init = Some typedPage
  /\ CreateReport.step (UI CreateReport.ClickGenerate) typedPage = Some generatingPage
  /\ ReportPreview.run idleSession ReportPreview.init = Some idlePage
  /\ ReportPreview.step (UI ReportPreview.ClickPublish) idlePage = Some publishingPage
  /\ CreateReport.handleGenerate (ui typedPage)
     = [ Do (CreateReport.SetIsGenerating true);
         Await 2000;
         Do (CreateReport.SetIsGenerating false);
         Do (CreateReport.Navigate (js "/reports/preview") (js "Q4 report")) ].
Proof.
  repeat (split; [reflexivity|]).
  exact (proj1 (proj1 (C6_fixed_delay_flags typedSession typedPage generatingPage
                         idleSession idlePage publishingPage
                         eq_refl eq_refl eq_refl eq_refl))).
Defined.

(** C9: once a session of the preview page has [isPublished] true, whatever
    happens next leaves it true: the publish button stays disabled, no click
    on it is delivered, no operation is in flight, and the one fulfilled
    promise of the session stays the only one; a session holds at most one
    click on publish and at most one publication. *)
Theorem C9_publish_at_most_once
  (es es' : list (event ReportPreview.action)) (l l' : ReportPreview.page)
  (Hrun : ReportPreview.run es ReportPreview.init = Some l)
  (Hpublished : ReportPreview.isPublished (ui l) = true)
  (Hnext : ReportPreview.run es' l = Some l') :
  ReportPreview.isPublished (ui l') = true
  /\ ReportPreview.publishDisabled (ui l') = true
  /\ ReportPreview.step (UI ReportPreview.ClickPublish) l' = None
  /\ timers l' = []
  /\ promises l' = [Fulfilled]
  /\ ReportPreview.clicks es = 1%nat
  /\ ReportPreview.clicks es' = 0%nat
  /\ Forall (fun e => exists dt, e = Advance dt) es'.
Proof.
  pose proof (ReportPreview_reachable_inv _ _ Hrun) as Hinv.
  destruct Hinv as [(_ & Hui & _) | [(_ & Hui & _) | (Hn & Hui & Ht & Hp)]];
    try (rewrite Hui in Hpublished; discriminate Hpublished).
  destruct (ReportPreview_published_stable _ _ _ Hui Ht Hnext)
    as (Hui' & Ht' & Hp' & Hc' & Hadv).
  rewrite Hui in Hui'.
  repeat split; auto.
  - now rewrite Hui'.
  - unfold ReportPreview.publishDisabled. now rewrite Hui'.
  - simpl. unfold ReportPreview.publishDisabled. now rewrite Hui'.
  - congruence.
Qed.

Lemma C9_publish_at_most_once_witness :
  ReportPreview.run publishedSession ReportPreview.init = Some publishedPage
  /\ ReportPreview.isPublished (ui publishedPage) = true
  /\ ReportPreview.run [Advance 100] publishedPage = Some laterPage
  /\ ReportPreview.step (UI ReportPreview.ClickPublish) laterPage = None.
Proof.
  repeat (split; [reflexivity|]).
  exact (proj1 (proj2 (proj2 (C9_publish_at_most_once publishedSession [Advance 100]
                                publishedPage laterPage eq_refl eq_refl eq_refl)))).
Defined.

(* ================================================================== *)
(** ** Sessions of the Settings page *)
(* ================================================================== *)

Lemma Settings_click (l l' : Settings.page) :
  Settings.step (UI Settings.ClickSave) l = Some l' ->
  Settings.isSaving (ui l) = false
  /\ l' = mkLoop (Settings.mkState true (Settings.saved (ui l))) (clock l)
            (timers l ++ [mkTask (clock l + 1000) Settings.resume true])
            (promises l).
Proof.
  unfold Settings.step. simpl. unfold Settings.saveDisabled.
  destruct (Settings.isSaving (ui l)) eqn:Hd; [discriminate|].
  intros H. injection H as <-. split; reflexivity.
Qed.

Lemma Settings_exec_resume (m : Settings.page) :
  exec Settings.perform true Settings.resume m
  = mkLoop (Settings.mkState false true) (clock m)
      (timers m ++ [mkTask (clock m + 2000) [Do (Settings.SetSaved false)] false])
      (promises m ++ [Fulfilled]).
Proof. reflexivity. Qed.

Lemma Settings_resume_not_callback :
  Settings.resume <> [Do (Settings.SetSaved false)].
Proof. discriminate. Qed.

Lemma Settings_inv_step (e : event Settings.action) (l l' : Settings.page) :
  Settings_inv l -> Settings.step e l = Some l' -> Settings_inv l'.
Proof.
  intros [Hp Ht] Hstep. destruct e as [[] | dt | ].
  - apply Settings_click in Hstep as (_ & ->). split; simpl; [exact Hp|].
    apply Forall_app. split; [exact Ht|]. constructor; [|constructor].
    left. now split.
  - apply advance_some in Hstep as [_ ->]. now split.
  - unfold Settings.step in Hstep. simpl in Hstep. unfold fire in Hstep.
    destruct (pick (timers l)) as [[m rest]|] eqn:Hpick; [|discriminate].
    destruct (due m <=? clock l)%Z; [|discriminate]. injection Hstep as <-.
    assert (Hrest : Forall Settings_task rest).
    { rewrite Forall_forall in *. intros t Hin. apply Ht.
      apply (pick_In _ _ _ Hpick). now right. }
    assert (Hm : Settings_task m).
    { rewrite Forall_forall in Ht. apply Ht. apply (pick_In _ _ _ Hpick). now left. }
    destruct Hm as [[Hb Hs] | [Hb Hs]]; rewrite Hb, Hs.
    + rewrite Settings_exec_resume. split; simpl.
      * apply Forall_app. split; [exact Hp | repeat constructor].
      * apply Forall_app. split; [exact Hrest|]. constructor; [|constructor].
        right. now split.
    + split; simpl; assumption.
Qed.

Lemma Settings_inv_run (es : list (event Settings.action)) :
  forall l l' : Settings.page,
  Settings_inv l -> Settings.run es l = Some l' -> Settings_inv l'.
Proof.
  induction es as [|e es IH]; intros l l' Hinv Hrun.
  - injection Hrun as <-. exact Hinv.
  - unfold Settings.run in Hrun. simpl in Hrun.
    destruct (EventLoop.step Settings.perform Settings.dispatch e l)
      as [l1|] eqn:Hstep; [|discriminate].
    apply (IH l1 l'); [|exact Hrun].
    now apply (Settings_inv_step e l).
Qed.

Lemma Settings_reachable_inv (es : list (event Settings.action)) l :
  Settings.run es Settings.init = Some l -> Settings_inv l.
Proof.
  apply Settings_inv_run. split; constructor.
Qed.

(** Some wait makes every timer of a list due. *)
Lemma all_due_after {Eff : Type} (ts : list (task Eff)) (c : Z) :
  exists dt, (0 <= dt)%Z /\ Forall (fun t => (due t <= c + dt)%Z) ts.
Proof.
  induction ts as [|t ts (dt & Hdt & Hall)].
  - exists 0%Z. split; [lia | constructor].
  - exists (Z.max dt (due t - c)). split; [lia|]. constructor; [lia|].
    eapply Forall_impl; [|exact Hall]. simpl. intros a Ha. lia.
Qed.

(** With every timer due and what is left of a save among them, firing the
    timers one after the other reaches the end of that save. *)
Lemma Settings_drain (n : nat) :
  forall l : Settings.page,
  List.length (timers l) = n ->
  Forall Settings_task (timers l) ->
  Forall (fun t => (due t <= clock l)%Z) (timers l) ->
  (exists t, In t (timers l) /\ body t = Settings.resume) ->
  exists k l', Settings.run (repeat Fire k) l = Some l'
               /\ ui l' = Settings.mkState false true
               /\ promises l' = promises l ++ [Fulfilled].
Proof.
  induction n as [|n IH]; intros l Hlen Htask Hdue (t & Hin & Hbody).
  - destruct (timers l); [contradiction | discriminate].
  - destruct (pick_some (timers l)) as (m & rest & Hpick).
    { intros E. rewrite E in Hin. contradiction. }
    pose proof (pick_In _ _ _ Hpick) as HIn.
    pose proof (pick_length _ _ _ Hpick) as Hl.
    assert (Hm : In m (timers l)) by (apply HIn; now left).
    assert (Hmdue : (due m <=? clock l)%Z = true).
    { apply Z.leb_le. rewrite Forall_forall in Hdue. now apply Hdue. }
    assert (Hmtask : Settings_task m).
    { rewrite Forall_forall in Htask. now apply Htask. }
    destruct Hmtask as [[Hb Hs] | [Hb Hs]].
    + exists 1%nat. eexists. split.
      * unfold Settings.run. simpl. unfold fire. rewrite Hpick, Hmdue, Hb, Hs.
        rewrite Settings_exec_resume. reflexivity.
      * split; reflexivity.
    + set (l1 := mkLoop (Settings.perform (Settings.SetSaved false) (ui l))
                   (clock l) rest (promises l) : Settings.page).
      destruct (IH l1) as (k & l' & Hrun & Hui & Hp).
      * simpl. lia.
      * simpl. rewrite Forall_forall in *. intros a Ha. apply Htask, HIn. now right.
      * simpl. rewrite Forall_forall in *. intros a Ha. apply Hdue, HIn. now right.
      * exists t. split; [|exact Hbody]. simpl.
        apply HIn in Hin. destruct Hin as [-> | Hin]; [|exact Hin].
        rewrite Hb in Hbody. symmetry in Hbody.
        now apply Settings_resume_not_callback in Hbody.
      * exists (S k), l'. split; [|split; assumption].
        unfold Settings.run. simpl. unfold fire. rewrite Hpick, Hmdue, Hb, Hs.
        exact Hrun.
Qed.

(** Every delivered click on save reaches the resolved state of the save. *)
Lemma Settings_save_resolves (es : list (event Settings.action)) (l l1 : Settings.page) :
  Settings.run es Settings.init = Some l ->
  Settings.step (UI Settings.ClickSave) l = Some l1 ->
  exists es' l', Settings.run es' l1 = Some l'
                 /\ ui l' = Settings.mkState false true
                 /\ promises l' = promises l ++ [Fulfilled].
Proof.
  intros Hrun Hclick.
  pose proof (Settings_reachable_inv _ _ Hrun) as Hinv.
  pose proof (Settings_inv_step _ _ _ Hinv Hclick) as [_ Htask].
  apply Settings_click in Hclick as (_ & ->). simpl in Htask.
  set (ts := timers l ++ [mkTask (clock l + 1000) Settings.resume true]) in *.
  destruct (all_due_after ts (clock l)) as (dt & Hdt & Hall).
  set (l2 := mkLoop (Settings.mkState true (Settings.saved (ui l))) (clock l + dt)
               ts (promises l) : Settings.page).
  destruct (Settings_drain (List.length ts) l2 eq_refl Htask Hall) as (k & l' & Hk & Hui & Hp).
  { exists (mkTask (clock l + 1000) Settings.resume true). split; [|reflexivity].
    simpl. unfold ts. apply in_or_app. right. now left. }
  exists (Advance dt :: repeat Fire k), l'. split; [|split; assumption].
  unfold Settings.run. simpl. unfold advance.
  apply Z.leb_le in Hdt. rewrite Hdt. exact Hk.
Qed.

Example savedSession_runs : Settings.run savedSession Settings.init = Some savedPage.
Proof. reflexivity. Qed.

(** C4: the three handlers have no statement that throws, and in every
    state a session of the three pages can reach no handler promise has been
    rejected; every operation starts when its control is enabled and reaches
    its resolved state: on a generate page with a prompt that is not blank
    and no generation pending, the click is delivered and 2000 ms later the
    timer fires, the pending flag is cleared and the preview is navigated
    to; on a preview page neither publishing nor published, the click is
    delivered and 1500 ms later the page is published; on a settings page
    that is not saving, the click is delivered and the page comes to "not
    saving, saved" with the handler's promise fulfilled (1000 ms after the
    click when no earlier timer is left). *)
Theorem C4_always_succeeds
  (esG : list (event CreateReport.action)) (lG : CreateReport.page)
  (esP : list (event ReportPreview.action)) (lP : ReportPreview.page)
  (esS : list (event Settings.action)) (lS : Settings.page)
  (HG : CreateReport.run esG CreateReport.init = Some lG)
  (HP : ReportPreview.run esP ReportPreview.init = Some lP)
  (HS : Settings.run esS Settings.init = Some lS) :
  ((forall s, ~ In Throw (CreateReport.handleGenerate s))
   /\ ~ In Throw ReportPreview.handlePublish
   /\ ~ In Throw Settings.handleSave)
  /\ (~ In Rejected (promises lG)
      /\ ~ In Rejected (promises lP)
      /\ ~ In Rejected (promises lS))
  /\ (~ blank (CreateReport.prompt (ui lG)) ->
      CreateReport.isGenerating (ui lG) = false ->
      CreateReport.run [UI CreateReport.ClickGenerate; Advance 2000; Fire] lG
      = Some (mkLoop
                (CreateReport.mkState (CreateReport.prompt (ui lG)) false
                   (CreateReport.navigated (ui lG)
                    ++ [(js "/reports/preview", CreateReport.prompt (ui lG))]))
                (clock lG + 2000) [] (promises lG ++ [Fulfilled])))
  /\ (ReportPreview.isPublishing (ui lP) = false ->
      ReportPreview.isPublished (ui lP) = false ->
      ReportPreview.run [UI ReportPreview.ClickPublish; Advance 1500; Fire] lP
      = Some (mkLoop (ReportPreview.mkState false true) (clock lP + 1500) []
                [Fulfilled]))
  /\ (Settings.isSaving (ui lS) = false ->
      exists es' l',
        Settings.run (UI Settings.ClickSave :: es') lS = Some l'
        /\ ui l' = Settings.mkState false true
        /\ promises l' = promises lS ++ [Fulfilled])
  /\ (Settings.isSaving (ui lS) = false -> timers lS = [] ->
      Settings.run [UI Settings.ClickSave; Advance 1000; Fire] lS
      = Some (mkLoop (Settings.mkState false true) (clock lS + 1000)
                [mkTask (clock lS + 1000 + 2000) [Do (Settings.SetSaved false)] false]
                (promises lS ++ [Fulfilled]))).
Proof.
  assert (Hnot : forall ps, Forall (eq Fulfilled) ps -> ~ In Rejected ps).
  { intros ps Hall Hin. rewrite Forall_forall in Hall. apply Hall in Hin. discriminate. }
  split; [|split; [|split; [|split; [|split]]]].
  - split; [|split].
    + intros s. unfold CreateReport.handleGenerate.
      destruct (negb (truthy (trim (CreateReport.prompt s)))); simpl;
        intuition discriminate.
    + simpl. intuition discriminate.
    + simpl. intuition discriminate.
  - split; [|split]; apply Hnot.
    + apply (CreateReport_reachable_inv _ _ HG).
    + destruct (ReportPreview_reachable_inv _ _ HP)
        as [(_ & _ & _ & ->) | [(_ & _ & _ & ->) | (_ & _ & _ & ->)]];
        repeat constructor.
    + apply (Settings_reachable_inv _ _ HS).
  - intros Hnb Hidle.
    assert (Hclick : exists l1,
               CreateReport.step (UI CreateReport.ClickGenerate) lG = Some l1).
    { unfold CreateReport.step. simpl. unfold CreateReport.generateDisabled.
      rewrite Hidle.
      destruct (truthy (trim (CreateReport.prompt (ui lG)))) eqn:Ht;
        [simpl; now eexists|].
      exfalso. apply Hnb. now apply truthy_trim_false_iff. }
    destruct Hclick as [l1 Hclick].
    change (CreateReport.run [UI CreateReport.ClickGenerate; Advance 2000; Fire] lG)
      with (match CreateReport.step (UI CreateReport.ClickGenerate) lG with
            | Some l' => CreateReport.run [Advance 2000; Fire] l'
            | None => None
            end).
    rewrite Hclick.
    destruct (CreateReport_enabled_idle _ _ _ HG Hclick) as [_ Ht].
    apply CreateReport_click in Hclick as (_ & _ & ->). rewrite Ht.
    unfold CreateReport.run. simpl. unfold fire. simpl.
    now rewrite Z.leb_refl.
  - intros Hidle Hfresh.
    assert (Hclick : exists l1,
               ReportPreview.step (UI ReportPreview.ClickPublish) lP = Some l1).
    { unfold ReportPreview.step. simpl. unfold ReportPreview.publishDisabled.
      rewrite Hidle, Hfresh. simpl. now eexists. }
    destruct Hclick as [l1 Hclick].
    change (ReportPreview.run [UI ReportPreview.ClickPublish; Advance 1500; Fire] lP)
      with (match ReportPreview.step (UI ReportPreview.ClickPublish) lP with
            | Some l' => ReportPreview.run [Advance 1500; Fire] l'
            | None => None
            end).
    rewrite Hclick.
    destruct (ReportPreview_enabled_idle _ _ _ HP Hclick) as (_ & Ht & Hp).
    apply ReportPreview_click in Hclick as (_ & ->). rewrite Ht, Hp.
    unfold ReportPreview.run. simpl. unfold fire. simpl.
    now rewrite Z.leb_refl.
  - intros Hidle.
    assert (Hclick : exists l1,
               Settings.step (UI Settings.ClickSave) lS = Some l1).
    { unfold Settings.step. simpl. unfold Settings.saveDisabled.
      rewrite Hidle. now eexists. }
    destruct Hclick as [l1 Hclick].
    destruct (Settings_save_resolves _ _ _ HS Hclick) as (es' & l' & Hrun & Hui & Hp).
    exists es', l'. split; [|split; assumption].
    change (Settings.run (UI Settings.ClickSave :: es') lS)
      with (match Settings.step (UI Settings.ClickSave) lS with
            | Some l0 => Settings.run es' l0
            | None => None
            end).
    now rewrite Hclick.
  - intros Hidle Ht.
    unfold Settings.run. simpl. unfold Settings.saveDisabled. rewrite Hidle.
    simpl. unfold fire. simpl. rewrite Ht. simpl.
    now rewrite Z.leb_refl.
Qed.

Lemma C4_always_succeeds_witness :
  CreateReport.run typedSession CreateReport.init = Some typedPage
  /\ ReportPreview.run idleSession ReportPreview.init = Some idlePage
  /\ Settings.run savedSession Settings.init = Some savedPage
  /\ ~ In Rejected (promises savedPage)
  /\ CreateReport.run [UI CreateReport.ClickGenerate; Advance 2000; Fire] typedPage
     = Some generatedPage
  /\ ReportPreview.run [UI ReportPreview.ClickPublish; Advance 1500; Fire] idlePage
     = Some publishedPage
  /\ exists es' l',
       Settings.run (UI Settings.ClickSave :: es') savedPage = Some l'
       /\ ui l' = Settings.mkState false true
       /\ promises l' = promises savedPage ++ [Fulfilled].
Proof.
  pose proof (C4_always_succeeds typedSession typedPage idleSession idlePage
                savedSession savedPage eq_refl eq_refl eq_refl)
    as (_ & (_ & _ & Hs) & Hg & Hp & Hsave & _).
  repeat (split; [reflexivity|]). split; [exact Hs|].
  split; [|split].
  - apply Hg; [|reflexivity]. intros Hb. inversion Hb as [|? ? Hc _]. discriminate Hc.
  - exact (Hp eq_refl eq_refl).
  - exact (Hsave eq_refl).
Defined.

(* ================================================================== *)
(** ** What the preview draws *)
(* ================================================================== *)

Lemma Array_map_from_spec {A B : Type} (f : A -> nat -> option B) (xs : list A) :
  forall (k : nat) (ys : list B),
  Array_map_from f k xs = Some ys ->
  List.length ys = List.length xs
  /\ forall i x, nth_error xs i = Some x ->
     exists y, nth_error ys i = Some y /\ f x (k + i)%nat = Some y.
Proof.
  induction xs as [|x xs IH]; intros k ys H; simpl in H.
  - injection H as <-. split; [reflexivity|]. intros [|i] a Ha; discriminate.
  - destruct (f x k) as [y|] eqn:Hy; [|discriminate].
    destruct (Array_map_from f (S k) xs) as [ys'|] eqn:Hys; [|discriminate].
    injection H as <-. destruct (IH _ _ Hys) as [Hlen Hnth].
    split; [simpl; now rewrite Hlen|].
    intros [|i] a Ha; simpl in Ha.
    + injection Ha as <-. exists y. rewrite Nat.add_0_r. now split.
    + destruct (Hnth i a Ha) as (b & Hb & Hf). exists b. split; [exact Hb|].
      now rewrite Nat.add_succ_r.
Qed.

Lemma Array_map_from_total {A B : Type} (f : A -> nat -> option B) (xs : list A) :
  Forall (fun x => forall i, f x i <> None) xs ->
  forall k, exists ys, Array_map_from f k xs = Some ys.
Proof.
  induction 1 as [|x xs Hx _ IH]; intros k; simpl.
  - now exists [].
  - destruct (f x k) as [y|] eqn:Hy; [|now apply Hx in Hy].
    destruct (IH (S k)) as [ys ->]. now exists (y :: ys).
Qed.

Lemma Array_map_from_throws {A B : Type} (f : A -> nat -> option B) (xs : list A) :
  forall k i x, nth_error xs i = Some x -> f x (k + i)%nat = None ->
  Array_map_from f k xs = None.
Proof.
  induction xs as [|a xs IH]; intros k [|i] x Hx Hf; simpl in Hx; try discriminate.
  - injection Hx as ->. simpl. rewrite Nat.add_0_r in Hf. now rewrite Hf.
  - simpl. destruct (f a k); [|reflexivity].
    rewrite (IH (S k) i x Hx); [reflexivity|]. now rewrite Nat.add_succ_l, <- Nat.add_succ_r.
Qed.

Lemma renderBody_drawable (section : ReportSection) :
  drawable section ->
  (ReportPreview.isTable section = true
   /\ exists first rest,
        section_data section = Some (first :: rest)
        /\ ReportPreview.renderBody section
           = Some (ReportPreview.TableBody (map fst first)
                     (map (ReportPreview.renderCells 0) (first :: rest))))
  \/ (ReportPreview.isTable section = false
      /\ ReportPreview.renderBody section
         = Some (ReportPreview.Paragraph (section_content section))).
Proof.
  unfold drawable, ReportPreview.renderBody. intros Hd.
  destruct (ReportPreview.isTable section) eqn:Ht; [left | right; now split].
  split; [reflexivity|].
  unfold ReportPreview.isTable in Ht. apply andb_true_iff in Ht as [_ Ht].
  destruct (section_data section) as [[|first rest]|]; try discriminate.
  - now destruct Hd.
  - now exists first, rest.
Qed.

(** The sections of a report whose tables all have a row are drawn in their
    order, one card each, a table exactly for the sections of type 'table'
    that carry data and a paragraph for the others. *)
Lemma renderSections_drawable (report : GeneratedReport) :
  Forall drawable (sections report) ->
  exists cards,
    ReportPreview.renderSections report = Some cards
    /\ List.length cards = List.length (sections report)
    /\ forall i section, nth_error (sections report) i = Some section ->
       exists card,
         nth_error cards i = Some card
         /\ ReportPreview.card_key card = section_id section
         /\ ReportPreview.card_index card = i
         /\ ReportPreview.card_title card = section_title section
         /\ ((ReportPreview.isTable section = true
              /\ exists first rest,
                   section_data section = Some (first :: rest)
                   /\ ReportPreview.card_body card
                      = ReportPreview.TableBody (map fst first)
                          (map (ReportPreview.renderCells 0) (first :: rest)))
             \/ (ReportPreview.isTable section = false
                 /\ ReportPreview.card_body card
                    = ReportPreview.Paragraph (section_content section))).
Proof.
  intros Hall. unfold ReportPreview.renderSections, Array_map.
  destruct (Array_map_from_total ReportPreview.renderSection (sections report)) with (k := 0%nat)
    as [cards Hcards].
  { eapply Forall_impl; [|exact Hall]. intros s Hs i.
    unfold ReportPreview.renderSection.
    destruct (renderBody_drawable s Hs) as [[_ (f & r & _ & ->)] | [_ ->]]; discriminate. }
  exists cards. split; [exact Hcards|].
  destruct (Array_map_from_spec _ _ _ _ Hcards) as [Hlen Hnth].
  split; [exact Hlen|].
  intros i s Hs. destruct (Hnth i s Hs) as (card & Hcard & Hrender).
  exists card. split; [exact Hcard|].
  rewrite Forall_forall in Hall. specialize (Hall s (nth_error_In _ _ Hs)).
  unfold ReportPreview.renderSection in Hrender. simpl in Hrender.
  destruct (renderBody_drawable s Hall) as [[Ht (f & r & Hdata & Hb)] | [Ht Hb]];
    rewrite Hb in Hrender; injection Hrender as <-; simpl;
    repeat split; auto.
  - left. split; [exact Ht|]. now exists f, r.
Qed.

(** The citations are drawn in their order, numbered from 1, with a link
    exactly for those whose [url] is a non-empty string, a separator after
    each but the last. *)
Lemma renderCitations_spec (report : GeneratedReport) :
  exists items,
    ReportPreview.renderCitations report = Some items
    /\ List.length items = List.length (citations report)
    /\ forall i citation, nth_error (citations report) i = Some citation ->
       exists item,
         nth_error items i = Some item
         /\ ReportPreview.item_key item = citation_id citation
         /\ ReportPreview.item_number item = (i + 1)%nat
         /\ ReportPreview.item_source item = citation_source citation
         /\ ReportPreview.item_excerpt item = citation_excerpt citation
         /\ (forall u, ReportPreview.item_link item = Some u
                       <-> citation_url citation = Some u /\ u <> []).
Proof.
  unfold ReportPreview.renderCitations, Array_map.
  destruct (Array_map_from_total
              (ReportPreview.renderCitation (List.length (citations report)))
              (citations report)) with (k := 0%nat) as [items Hitems].
  { apply Forall_forall. intros c _ i. discriminate. }
  exists items. split; [exact Hitems|].
  destruct (Array_map_from_spec _ _ _ _ Hitems) as [Hlen Hnth].
  split; [exact Hlen|].
  intros i c Hc. destruct (Hnth i c Hc) as (item & Hitem & Hrender).
  exists item. split; [exact Hitem|].
  unfold ReportPreview.renderCitation in Hrender. injection Hrender as <-. simpl.
  do 4 (split; [reflexivity|]).
  intros u. destruct (citation_url c) as [[|x v]|]; simpl.
  - split; [discriminate | intros [E Hne]; congruence].
  - split; [intros E; split; [exact E | injection E as <-; discriminate] | intros [E _]; exact E].
  - split; [discriminate | intros [E _]; discriminate].
Qed.

Example demoReport_cards :
  option_map (map ReportPreview.card_icon) (ReportPreview.renderSections demoReport)
  = Some [ReportPreview.TableIcon; ReportPreview.LightbulbIcon].
Proof. reflexivity. Qed.

Example demoReport_links :
  option_map (map ReportPreview.item_link) (ReportPreview.renderCitations demoReport)
  = Some [None; Some (js "https://example.com")].
Proof. reflexivity. Qed.

(** Any report with such a section makes the whole render throw. *)
Lemma renderSections_throws (report : GeneratedReport) (section : ReportSection) :
  In section (sections report) ->
  ReportPreview.isTable section = true -> section_data section = Some [] ->
  ReportPreview.renderSections report = None.
Proof.
  intros Hin Ht Hd. apply In_nth_error in Hin as [i Hi].
  unfold ReportPreview.renderSections, Array_map.
  apply (Array_map_from_throws _ _ 0%nat i section Hi).
  unfold ReportPreview.renderSection, ReportPreview.renderBody.
  now rewrite Ht, Hd.
Qed.

(** A report with a table that has no row makes the render throw. *)
Example emptyTableReport_throws :
  ReportPreview.renderSections emptyTableReport = None.
Proof. reflexivity. Qed.

Lemma isTable_iff (section : ReportSection) :
  ReportPreview.isTable section = true
  <-> section_type section = js "table" /\ section_data section <> None.
Proof.
  unfold ReportPreview.isTable. rewrite andb_true_iff, strictEq_spec.
  destruct (section_data section); split; intros [H1 H2]; split;
    auto; try discriminate; try (now destruct H2).
Qed.

(** C7: for a generated report whose tables have rows (every section of
    type 'table' that has data has at least one row, the first row being
    the one the headings are read from), the preview renders the sections
    in their given order, one card each, the card of a section being a
    table exactly when the section's type is 'table' and it has data, and
    the paragraph of its narrative text otherwise; and it renders the
    citations in their given order, numbered 1..n, with an external link
    for a citation if and only if that citation has a url (a non-empty
    string), the link being that url. *)
Theorem C7_preview_renders (report : GeneratedReport)
  (Hrows : Forall drawable (sections report)) :
  (exists cards,
      ReportPreview.renderSections report = Some cards
      /\ List.length cards = List.length (sections report)
      /\ forall i section, nth_error (sections report) i = Some section ->
         exists card,
           nth_error cards i = Some card
           /\ ReportPreview.card_key card = section_id section
           /\ ReportPreview.card_index card = i
           /\ ReportPreview.card_title card = section_title section
           /\ ((exists headers rows,
                  ReportPreview.card_body card = ReportPreview.TableBody headers rows)
               <-> section_type section = js "table" /\ section_data section <> None)
           /\ (forall data,
                 section_type section = js "table" -> section_data section = Some data ->
                 exists first rest,
                   data = first :: rest
                   /\ ReportPreview.card_body card
                      = ReportPreview.TableBody (map fst first)
                          (map (ReportPreview.renderCells 0) data))
           /\ (~ (section_type section = js "table" /\ section_data section <> None) ->
               ReportPreview.card_body card
               = ReportPreview.Paragraph (section_content section)))
  /\ (exists items,
      ReportPreview.renderCitations report = Some items
      /\ List.length items = List.length (citations report)
      /\ forall i citation, nth_error (citations report) i = Some citation ->
         exists item,
           nth_error items i = Some item
           /\ ReportPreview.item_key item = citation_id citation
           /\ ReportPreview.item_number item = (i + 1)%nat
           /\ ReportPreview.item_source item = citation_source citation
           /\ ReportPreview.item_excerpt item = citation_excerpt citation
           /\ (forall u, ReportPreview.item_link item = Some u
                         <-> citation_url citation = Some u /\ u <> [])).
Proof.
  split; [|apply renderCitations_spec].
  destruct (renderSections_drawable report Hrows) as (cards & Hcards & Hlen & Hnth).
  exists cards. split; [exact Hcards|]. split; [exact Hlen|].
  intros i section Hi.
  destruct (Hnth i section Hi) as (card & Hc & Hk & Hidx & Ht & Hbody).
  exists card. do 4 (split; [assumption|]).
  destruct Hbody as [[Htab (first & rest & Hdata & Hb)] | [Htab Hb]].
  - apply isTable_iff in Htab. split; [|split].
    + split; [intros _; exact Htab | intros _; rewrite Hb; now eexists _, _].
    + intros data _ Hd. rewrite Hdata in Hd. injection Hd as <-.
      exists first, rest. split; [reflexivity | exact Hb].
    + intros Hn. now destruct Hn.
  - split; [|split].
    + split.
      * intros (h & r & E). rewrite Hb in E. discriminate E.
      * intros H. apply isTable_iff in H. congruence.
    + intros data Hty Hd.
      assert (H : ReportPreview.isTable section = true).
      { apply isTable_iff. split; [exact Hty|]. rewrite Hd. discriminate. }
      congruence.
    + intros _. exact Hb.
Qed.

Lemma C7_preview_renders_witness :
  Forall drawable (sections demoReport)
  /\ exists cards,
       ReportPreview.renderSections demoReport = Some cards
       /\ List.length cards = 2%nat.
Proof.
  assert (H : Forall drawable (sections demoReport)).
  { repeat constructor; unfold drawable; simpl; discriminate. }
  split; [exact H|].
  destruct (C7_preview_renders demoReport H) as [(cards & Hc & Hlen & _) _].
  exists cards. split; [exact Hc | exact Hlen].
Defined.

(* ================================================================== *)
(** ** More on the two filtered lists *)
(* ================================================================== *)

Lemma subsequence_refl {A} (xs : list A) : subsequence xs xs.
Proof. induction xs; now constructor. Qed.

Lemma Array_filter_narrower {A} (f g : A -> bool) (xs : list A) :
  (forall x, f x = true -> g x = true) ->
  subsequence (Array_filter f xs) (Array_filter g xs).
Proof.
  intros H. induction xs as [|x xs IH]; simpl; [constructor|].
  destruct (f x) eqn:Hf.
  - rewrite (H x Hf). now constructor.
  - destruct (g x); [now constructor | exact IH].
Qed.

Lemma Array_filter_length_split {A} (f g h : A -> bool) (xs : list A) :
  (forall x, f x = true -> (g x = true /\ h x = false) \/ (g x = false /\ h x = true)) ->
  (forall x, f x = false -> g x = false /\ h x = false) ->
  List.length (Array_filter f xs)
  = (List.length (Array_filter g xs) + List.length (Array_filter h xs))%nat.
Proof.
  intros Ht Hf. induction xs as [|x xs IH]; simpl; [reflexivity|].
  destruct (f x) eqn:E.
  - destruct (Ht x E) as [[-> ->] | [-> ->]]; simpl; rewrite IH; lia.
  - destruct (Hf x E) as [-> ->]. exact IH.
Qed.

Lemma includes_narrower (s q q' a b : jsstring) :
  q' = (a ++ q ++ b)%list -> includes s q' = true -> includes s q = true.
Proof.
  intros -> H. apply includes_spec in H as (pre & post & ->).
  apply includes_spec. exists (pre ++ a)%list, (b ++ post)%list.
  now rewrite <- !app_assoc.
Qed.

(** X1.  The three status tabs of the reports page split the result of a
    search: the count shown under 'All' is the sum of the counts under
    'Drafts' and 'Published', and a tab holds exactly the reports of the
    'All' list that have its status. *)
Theorem MyReports_tabs_partition {CM : CaseMapping}
  (mockReports : list Report) (searchQuery : jsstring) :
  MyReports_count mockReports searchQuery all
  = (MyReports_count mockReports searchQuery (only draft)
     + MyReports_count mockReports searchQuery (only published))%nat
  /\ forall s r,
     In r (MyReports.filteredReports mockReports searchQuery (only s))
     <-> In r (MyReports.filteredReports mockReports searchQuery all)
         /\ report_status r = s.
Proof.
  split.
  - unfold MyReports_count, MyReports.filteredReports.
    apply Array_filter_length_split; intros r; simpl.
    + rewrite andb_true_r. intros ->. simpl.
      destruct (report_status r); simpl; [left | right]; now split.
    + rewrite andb_true_r. intros ->. now split.
  - intros s r. unfold MyReports.filteredReports.
    rewrite !Array_filter_In, !andb_true_iff. simpl.
    destruct (report_status r), s; simpl; intuition congruence.
Qed.

(** X2.  A longer query never brings records back: when the lower-cased
    query [q] occurs in the lower-cased query [q'], what [q'] finds is a
    subsequence of what [q] finds, on both pages and under any selection. *)
Theorem search_narrows {CM : CaseMapping}
  (mockTemplates : list Template) (mockReports : list Report) (q q' : jsstring)
  (Hocc : exists a b, toLowerCase q' = (a ++ toLowerCase q ++ b)%list) :
  (forall selectedCategory,
      subsequence (Templates.filteredTemplates mockTemplates q' selectedCategory)
        (Templates.filteredTemplates mockTemplates q selectedCategory))
  /\ (forall statusFilter,
      subsequence (MyReports.filteredReports mockReports q' statusFilter)
        (MyReports.filteredReports mockReports q statusFilter)).
Proof.
  destruct Hocc as (a & b & Hocc). split; intros sel.
  - apply Array_filter_narrower. intros t H.
    apply andb_true_iff in H as [Hs Hc]. rewrite Hc, andb_true_r.
    unfold Templates.matchesSearch in *. apply orb_true_iff in Hs.
    apply orb_true_iff. destruct Hs as [Hs | Hs]; [left | right];
      exact (includes_narrower _ _ _ _ _ Hocc Hs).
  - apply Array_filter_narrower. intros r H.
    apply andb_true_iff in H as [Hs Hc]. rewrite Hc, andb_true_r.
    unfold MyReports.matchesSearch in *.
    exact (includes_narrower _ _ _ _ _ Hocc Hs).
Qed.

Lemma search_narrows_witness :
  (exists a b, toLowerCase (js "Review") = (a ++ toLowerCase (js "RE") ++ b)%list)
  /\ subsequence (Templates.filteredTemplates demoTemplates (js "Review") None)
       (Templates.filteredTemplates demoTemplates (js "RE") None).
Proof.
  assert (H : exists a b,
             toLowerCase (js "Review") = (a ++ toLowerCase (js "RE") ++ b)%list).
  { exists [], (js "view"). reflexivity. }
  split; [exact H|].
  exact (proj1 (search_narrows demoTemplates demoReports (js "RE") (js "Review") H) None).
Defined.

Lemma Array_mapi_from_length {A B} (f : A -> nat -> B) (xs : list A) :
  forall k, List.length (Array_mapi_from f k xs) = List.length xs.
Proof. induction xs as [|x xs IH]; intros k; simpl; [|rewrite IH]; reflexivity. Qed.

Lemma Array_mapi_from_nth {A B} (f : A -> nat -> B) (xs : list A) :
  forall k i, nth_error (Array_mapi_from f k xs) i
              = option_map (fun x => f x (k + i)%nat) (nth_error xs i).
Proof.
  induction xs as [|x xs IH]; intros k [|i]; simpl; try reflexivity.
  - now rewrite Nat.add_0_r.
  - rewrite IH. now rewrite Nat.add_succ_r.
Qed.

Lemma Array_mapi_from_map {A B C} (f : A -> nat -> B) (g : B -> C) (h : A -> C)
  (xs : list A) :
  (forall x i, g (f x i) = h x) ->
  forall k, map g (Array_mapi_from f k xs) = map h xs.
Proof.
  intros H. induction xs as [|x xs IH]; intros k; simpl; [reflexivity|].
  now rewrite H, IH.
Qed.

Lemma Array_mapi_from_index {A B C} (f : A -> nat -> B) (g : B -> C) (h : nat -> C)
  (xs : list A) :
  (forall x i, g (f x i) = h i) ->
  forall k, map g (Array_mapi_from f k xs) = map h (seq k (List.length xs)).
Proof.
  intros H. induction xs as [|x xs IH]; intros k; simpl; [reflexivity|].
  now rewrite H, IH.
Qed.

Lemma all_before_last (m : nat) :
  forall k len, (k + len <= m)%nat ->
  map (fun j => negb (Nat.eqb j m)) (seq k len) = repeat true len.
Proof.
  intros k len. revert k. induction len as [|len IH]; intros k H; simpl; [reflexivity|].
  rewrite IH by lia. replace (Nat.eqb k m) with false; [reflexivity|].
  symmetry. apply Nat.eqb_neq. lia.
Qed.

Lemma all_but_last (n : nat) :
  map (fun j => negb (Nat.eqb j (S n - 1))) (seq 0 (S n)) = (repeat true n ++ [false])%list.
Proof.
  rewrite seq_S, map_app. simpl. rewrite Nat.sub_0_r, Nat.eqb_refl.
  f_equal. apply all_before_last. lia.
Qed.

(** X3.  The reports page draws "No reports found" exactly when no report
    of the fixture passes both the search and the status filter, and the
    templates page its "No templates found" block exactly when no template
    passes the search and the category. *)
Theorem empty_states {CM : CaseMapping}
  (mockTemplates : list Template) (mockReports : list Report)
  (searchQuery : jsstring) (selectedCategory : option jsstring)
  (statusFilter : StatusFilter) :
  (MyReports_body mockReports searchQuery statusFilter = NoReportsFound
   <-> forall r, In r mockReports ->
       ~ (containsCI (report_title r) searchQuery
          /\ MyReports.matchesStatus statusFilter r = true))
  /\ (Templates_showsEmptyState mockTemplates searchQuery selectedCategory = true
      <-> forall t, In t mockTemplates ->
          ~ ((containsCI (template_name t) searchQuery
              \/ containsCI (template_description t) searchQuery)
             /\ Templates.matchesCategory selectedCategory t = true)).
Proof.
  assert (Hnil : forall A (f : A -> bool) xs,
             Nat.eqb (List.length (Array_filter f xs)) 0 = true
             <-> forall x, In x xs -> f x <> true).
  { intros A f xs. rewrite Nat.eqb_eq, length_zero_iff_nil. split.
    - intros E x Hin Hf.
      assert (Hx : In x (Array_filter f xs)) by (apply Array_filter_In; now split).
      rewrite E in Hx. contradiction.
    - intros H. destruct (Array_filter f xs) as [|x l] eqn:E; [reflexivity|].
      assert (Hx : In x (Array_filter f xs)) by (rewrite E; now left).
      apply Array_filter_In in Hx as [Hin Hf]. now apply H in Hin. }
  split.
  - unfold MyReports_body.
    destruct (Nat.eqb (List.length
                (MyReports.filteredReports mockReports searchQuery statusFilter)) 0)
      eqn:E.
    + split; [intros _ | reflexivity].
      unfold MyReports.filteredReports in E.
      pose proof (proj1 (Hnil _ _ _) E) as E0. clear E. rename E0 into E. intros r Hin [Hs Hc]. apply (E r Hin).
      apply andb_true_iff. split; [now apply MyReports_matchesSearch_spec | exact Hc].
    + split; [discriminate|]. intros H. exfalso.
      assert (E' : Nat.eqb (List.length
                (MyReports.filteredReports mockReports searchQuery statusFilter)) 0
                   = true).
      { unfold MyReports.filteredReports. apply (proj2 (Hnil _ _ _)).
        intros r Hin Hf. apply andb_true_iff in Hf as [Hs Hc].
        apply (H r Hin). split; [now apply MyReports_matchesSearch_spec | exact Hc]. }
      congruence.
  - unfold Templates_showsEmptyState, Templates.filteredTemplates. rewrite Hnil.
    split; intros H t Hin.
    + intros [Hs Hc]. apply (H t Hin). apply andb_true_iff.
      split; [now apply Templates_matchesSearch_spec | exact Hc].
    + intros Hf. apply andb_true_iff in Hf as [Hs Hc]. apply (H t Hin).
      split; [now apply Templates_matchesSearch_spec | exact Hc].
Qed.

(** X4.  When the reports page draws rows, they are the filtered reports in
    their order, one row each, as many as the header counts; each row links
    to [/reports/] followed by the report's id; and every row carries the
    bottom border but the last. *)
Theorem MyReports_rows_drawn {CM : CaseMapping}
  (mockReports : list Report) (searchQuery : jsstring) (statusFilter : StatusFilter)
  (rows : list reportRow)
  (Hrows : MyReports_body mockReports searchQuery statusFilter = Rows rows) :
  List.length rows = MyReports_count mockReports searchQuery statusFilter
  /\ map row_key rows
     = map report_id (MyReports.filteredReports mockReports searchQuery statusFilter)
  /\ map row_title rows
     = map report_title (MyReports.filteredReports mockReports searchQuery statusFilter)
  /\ (forall row, In row rows -> row_to row = (js "/reports/" ++ row_key row)%list)
  /\ map row_border rows = (repeat true (List.length rows - 1) ++ [false])%list.
Proof.
  unfold MyReports_body, MyReports_count in *.
  set (fr := MyReports.filteredReports mockReports searchQuery statusFilter) in *.
  destruct (Nat.eqb (List.length fr) 0) eqn:E; [discriminate|].
  injection Hrows as <-. unfold Array_mapi.
  split; [apply Array_mapi_from_length|].
  split; [now apply Array_mapi_from_map|].
  split; [now apply Array_mapi_from_map|].
  split.
  - intros row Hin. apply In_nth_error in Hin as [i Hi].
    rewrite Array_mapi_from_nth in Hi.
    destruct (nth_error fr i); [|discriminate]. injection Hi as <-. reflexivity.
  - rewrite Array_mapi_from_length.
    rewrite (Array_mapi_from_index _ row_border
               (fun j => negb (Nat.eqb j (List.length fr - 1)))) by reflexivity.
    apply Nat.eqb_neq in E. destruct (List.length fr) as [|n]; [contradiction|].
    rewrite all_but_last. simpl. now rewrite Nat.sub_0_r.
Qed.

Lemma MyReports_rows_drawn_witness :
  MyReports_body demoReports (js "R") all
  = Rows (Array_mapi (MyReports_row 2) demoReports)
  /\ map row_border (Array_mapi (MyReports_row 2) demoReports) = [true; false].
Proof.
  split; [reflexivity|].
  exact (proj2 (proj2 (proj2 (proj2
    (MyReports_rows_drawn demoReports (js "R") all _ eq_refl))))).
Defined.

(* ================================================================== *)
(** ** The category buttons *)
(* ================================================================== *)

Lemma existsb_strictEq (x : jsstring) (seen : list jsstring) :
  existsb (strictEq x) seen = true <-> In x seen.
Proof.
  rewrite existsb_exists. split.
  - intros (y & Hy & E). apply strictEq_spec in E. now subst.
  - intros H. exists x. split; [exact H | now apply strictEq_spec].
Qed.

Lemma NoDup_snoc {A} (xs : list A) (x : A) :
  NoDup xs -> ~ In x xs -> NoDup (xs ++ [x]).
Proof.
  induction 1 as [|y ys Hy Hnd IH]; intros Hx; simpl.
  - constructor; [intros [] | constructor].
  - constructor.
    + rewrite in_app_iff. intros [H | [H | []]]; [contradiction|].
      apply Hx. left. now symmetry.
    + apply IH. intros H. apply Hx. now right.
Qed.

Lemma Set_spread_In (xs : list jsstring) :
  forall seen c, In c (Set_spread seen xs) <-> In c seen \/ In c xs.
Proof.
  induction xs as [|x xs IH]; intros seen c; simpl.
  - tauto.
  - destruct (existsb (strictEq x) seen) eqn:E.
    + apply existsb_strictEq in E. rewrite IH. split; [tauto|].
      intros [H | [<- | H]]; tauto.
    + rewrite IH, in_app_iff. simpl. tauto.
Qed.

Lemma Set_spread_NoDup (xs : list jsstring) :
  forall seen, NoDup seen -> NoDup (Set_spread seen xs).
Proof.
  induction xs as [|x xs IH]; intros seen Hnd; simpl; [exact Hnd|].
  destruct (existsb (strictEq x) seen) eqn:E; [now apply IH|].
  apply IH. apply NoDup_snoc; [exact Hnd|].
  intros H. apply existsb_strictEq in H. congruence.
Qed.

Lemma Set_spread_first_occurrences (xs : list jsstring) :
  forall seen, exists r, Set_spread seen xs = (seen ++ r)%list /\ subsequence r xs.
Proof.
  induction xs as [|x xs IH]; intros seen; simpl.
  - exists []. split; [now rewrite app_nil_r | constructor].
  - destruct (existsb (strictEq x) seen).
    + destruct (IH seen) as (r & -> & Hr). exists r. split; [reflexivity | now constructor].
    + destruct (IH (seen ++ [x])%list) as (r & -> & Hr). exists (x :: r).
      split; [now rewrite <- app_assoc | now constructor].
Qed.

Lemma Templates_categories_members {CM : CaseMapping} (mockTemplates : list Template) :
  NoDup (Templates_categories mockTemplates)
  /\ (forall c, In c (Templates_categories mockTemplates)
                <-> exists t, In t mockTemplates /\ template_category t = c)
  /\ subsequence (Templates_categories mockTemplates)
       (map template_category mockTemplates)
  /\ (forall c, In c (Templates_categories mockTemplates) -> c <> [] ->
      (forall t, In t (Templates.filteredTemplates mockTemplates [] (Some c))
                 <-> In t mockTemplates /\ template_category t = c)
      /\ Templates_showsEmptyState mockTemplates [] (Some c) = false).
Proof.
  unfold Templates_categories.
  assert (Hin : forall c, In c (Set_spread [] (map template_category mockTemplates))
                <-> exists t, In t mockTemplates /\ template_category t = c).
  { intros c. rewrite Set_spread_In, in_map_iff. simpl. split.
    - intros [[] | (t & E & H)]. now exists t.
    - intros (t & H & E). right. now exists t. }
  split; [apply Set_spread_NoDup; constructor|].
  split; [exact Hin|].
  split.
  { destruct (Set_spread_first_occurrences (map template_category mockTemplates) [])
      as (r & -> & Hr). exact Hr. }
  intros c Hc Hne.
  assert (Hshown : forall t,
             In t (Templates.filteredTemplates mockTemplates [] (Some c))
             <-> In t mockTemplates /\ template_category t = c).
  { intros t. unfold Templates.filteredTemplates.
    rewrite Array_filter_In, Templates_matchesSearch_empty. simpl.
    unfold Templates.matchesCategory, Templates.categoryIs. simpl.
    destruct c as [|x c]; [contradiction|]. simpl.
    now rewrite strictEq_spec. }
  split; [exact Hshown|].
  unfold Templates_showsEmptyState. apply Nat.eqb_neq. intros E.
  apply length_zero_iff_nil in E.
  apply Hin in Hc as (t & Ht & Hcat).
  assert (Hx : In t (Templates.filteredTemplates mockTemplates [] (Some c))).
  { apply Hshown. now split. }
  rewrite E in Hx. contradiction.
Qed.

Lemma Set_spread_app (a : list jsstring) :
  forall seen b, Set_spread seen (a ++ b) = Set_spread (Set_spread seen a) b.
Proof.
  induction a as [|x a IH]; intros seen b; simpl; [reflexivity|].
  destruct (existsb (strictEq x) seen); apply IH.
Qed.

Lemma filter_filter_absorb {A} (f g : A -> bool) (xs : list A) :
  (forall x, f x = true -> g x = true) ->
  filter f (filter g xs) = filter f xs.
Proof.
  intros H. induction xs as [|x xs IH]; simpl; [reflexivity|].
  destruct (g x) eqn:Eg; simpl.
  - destruct (f x); now rewrite IH.
  - destruct (f x) eqn:Ef; [|exact IH]. apply H in Ef. congruence.
Qed.

Lemma filter_filter_and {A} (f g : A -> bool) (xs : list A) :
  filter f (filter g xs) = filter (fun x => g x && f x) xs.
Proof.
  induction xs as [|x xs IH]; simpl; [reflexivity|].
  destruct (g x); simpl; [destruct (f x)|]; now rewrite IH.
Qed.

(** What has been seen comes first, then the new strings in the order in
    which [Set_spread] would have found them from a fresh start. *)
Lemma Set_spread_seen (xs : list jsstring) :
  forall seen,
  Set_spread seen xs
  = (seen ++ filter (fun c => negb (existsb (strictEq c) seen)) (Set_spread [] xs))%list.
Proof.
  induction xs as [|x xs IH]; intros seen; simpl.
  - now rewrite app_nil_r.
  - rewrite (IH [x]). simpl.
    destruct (existsb (strictEq x) seen) eqn:E.
    + rewrite (IH seen). f_equal. simpl.
      symmetry. apply filter_filter_absorb. intros c Hc.
      apply negb_true_iff in Hc. rewrite orb_false_r. apply negb_true_iff.
      destruct (strictEq c x) eqn:Ecx; [|reflexivity].
      apply strictEq_spec in Ecx. subst c. congruence.
    + rewrite (IH (seen ++ [x])%list). rewrite <- app_assoc. simpl.
      do 2 f_equal.
      rewrite filter_filter_and. apply filter_ext. intros c.
      rewrite existsb_app. simpl. rewrite orb_false_r.
      destruct (existsb (strictEq c) seen), (strictEq c x); reflexivity.
Qed.

(** X5.  The category buttons of the templates page: one button for each
    category that occurs in the fixture and no other, none twice, in the
    order of first occurrence: the category of the first template comes
    first, followed by the buttons of the other templates without it, and a
    category stands right after the buttons of the templates that come
    before its first occurrence; and with the search box empty, the button
    of a non-empty category shows exactly the templates of that category,
    at least one, so it never leads to "No templates found". *)
Theorem Templates_category_buttons {CM : CaseMapping} (mockTemplates : list Template) :
  NoDup (Templates_categories mockTemplates)
  /\ (forall c, In c (Templates_categories mockTemplates)
                <-> exists t, In t mockTemplates /\ template_category t = c)
  /\ subsequence (Templates_categories mockTemplates)
       (map template_category mockTemplates)
  /\ (forall t ts, mockTemplates = t :: ts ->
      Templates_categories mockTemplates
      = template_category t
        :: filter (fun c => negb (strictEq c (template_category t)))
             (Templates_categories ts))
  /\ (forall before t after,
      mockTemplates = (before ++ t :: after)%list ->
      (forall t', In t' before -> template_category t' <> template_category t) ->
      exists rest,
        Templates_categories mockTemplates
        = (Templates_categories before ++ template_category t :: rest)%list)
  /\ (forall c, In c (Templates_categories mockTemplates) -> c <> [] ->
      (forall t, In t (Templates.filteredTemplates mockTemplates [] (Some c))
                 <-> In t mockTemplates /\ template_category t = c)
      /\ Templates_showsEmptyState mockTemplates [] (Some c) = false).
Proof.
  destruct (Templates_categories_members mockTemplates) as (H1 & H2 & H3 & H4).
  split; [exact H1|]. split; [exact H2|]. split; [exact H3|].
  split; [|split; [|exact H4]].
  - intros t ts ->. unfold Templates_categories. simpl.
    rewrite (Set_spread_seen _ [template_category t]). simpl.
    f_equal. apply filter_ext. intros c. now rewrite orb_false_r.
  - intros before t after -> Hfirst. unfold Templates_categories.
    rewrite map_app, Set_spread_app. simpl.
    replace (existsb (strictEq (template_category t))
               (Set_spread [] (map template_category before))) with false.
    + destruct (Set_spread_first_occurrences (map template_category after)
                  (Set_spread [] (map template_category before)
                   ++ [template_category t])%list) as (r & -> & _).
      exists r. now rewrite <- app_assoc.
    + symmetry. apply not_true_is_false. intros E. apply existsb_strictEq in E.
      apply Set_spread_In in E. destruct E as [[] | E].
      apply in_map_iff in E as (t' & Ecat & Hin). now apply (Hfirst t' Hin).
Qed.

Example Templates_categories_demo :
  Set_spread [] [js "A"; js "B"; js "A"] = [js "A"; js "B"].
Proof. reflexivity. Qed.

(* ================================================================== *)
(** ** What the generate page hands to the preview *)
(* ================================================================== *)

Lemma CreateReport_inv_prompts_step (e : event CreateReport.action)
  (l l' : CreateReport.page) :
  CreateReport_inv_prompts l -> CreateReport.step e l = Some l' ->
  CreateReport_inv_prompts l'.
Proof.
  intros [Hn Ht] Hstep. destruct e as [[v | i | ] | dt | ].
  - unfold CreateReport.step in Hstep. simpl in Hstep. injection Hstep as <-.
    now split.
  - unfold CreateReport.step in Hstep. simpl in Hstep.
    destruct (nth_error CreateReport.suggestions i); [|discriminate].
    injection Hstep as <-. now split.
  - apply CreateReport_click in Hstep as (Hd & _ & ->).
    unfold CreateReport.generateDisabled in Hd. apply orb_false_iff in Hd as [Hd _].
    apply negb_false_iff in Hd.
    split; simpl; [exact Hn|]. apply Forall_app. split; [exact Ht|].
    constructor; [|constructor]. now eexists.
  - apply advance_some in Hstep as [_ ->]. now split.
  - unfold CreateReport.step in Hstep. simpl in Hstep. unfold fire in Hstep.
    destruct (pick (timers l)) as [[m rest]|] eqn:Hpick; [|discriminate].
    destruct (due m <=? clock l)%Z; [|discriminate]. injection Hstep as <-.
    rewrite Forall_forall in Ht.
    destruct (Ht m) as (p & Hb & Hs & Hp).
    { apply (pick_In _ _ _ Hpick). now left. }
    rewrite Hb, Hs. split; simpl.
    + apply Forall_app. split; [exact Hn|]. constructor; [|constructor]. now split.
    + apply Forall_forall. intros t Hin. apply Ht.
      apply (pick_In _ _ _ Hpick). now right.
Qed.

Lemma CreateReport_inv_prompts_run (es : list (event CreateReport.action)) :
  forall l l' : CreateReport.page,
  CreateReport_inv_prompts l -> CreateReport.run es l = Some l' ->
  CreateReport_inv_prompts l'.
Proof.
  induction es as [|e es IH]; intros l l' Hinv Hrun.
  - injection Hrun as <-. exact Hinv.
  - unfold CreateReport.run in Hrun. simpl in Hrun.
    destruct (EventLoop.step CreateReport.perform CreateReport.dispatch e l)
      as [l1|] eqn:Hstep; [|discriminate].
    apply (IH l1 l'); [|exact Hrun].
    now apply (CreateReport_inv_prompts_step e l).
Qed.

Lemma truthy_trim_nonempty (p : jsstring) : truthy (trim p) = true -> truthy p = true.
Proof.
  destruct p; [|reflexivity]. discriminate.
Qed.

(** X6.  Whatever happens in a session of the generate page, every call it
    makes to [navigate] goes to [/reports/preview] and carries a prompt that
    is not blank; the preview page then takes that very prompt, not its
    default title, for its header. *)
Theorem CreateReport_navigates_with_prompt
  (es : list (event CreateReport.action)) (l : CreateReport.page)
  (to p : jsstring)
  (Hrun : CreateReport.run es CreateReport.init = Some l)
  (Hnav : In (to, p) (CreateReport.navigated (ui l))) :
  to = js "/reports/preview"
  /\ ~ blank p
  /\ ReportPreview_prompt (Some p) = p.
Proof.
  assert (Hinv : CreateReport_inv_prompts l).
  { apply (CreateReport_inv_prompts_run es CreateReport.init); [|exact Hrun].
    split; constructor. }
  destruct Hinv as [Hn _]. rewrite Forall_forall in Hn.
  destruct (Hn _ Hnav) as [Hto Hp]. simpl in Hto, Hp.
  split; [exact Hto|]. split.
  - intros Hb. apply truthy_trim_false_iff in Hb. congruence.
  - unfold ReportPreview_prompt, orElse. now rewrite (truthy_trim_nonempty _ Hp).
Qed.

Lemma CreateReport_navigates_with_prompt_witness :
  CreateReport.run (typedSession ++ [UI CreateReport.ClickGenerate; Advance 2000; Fire])
    CreateReport.init
  = Some (mkLoop
            (CreateReport.mkState (js "Q4 report") false
               [(js "/reports/preview", js "Q4 report")])
            2010%Z [] [Fulfilled])
  /\ ReportPreview_prompt (Some (js "Q4 report")) = js "Q4 report".
Proof.
  split; [reflexivity|].
  exact (proj2 (proj2 (CreateReport_navigates_with_prompt
                         (typedSession ++ [UI CreateReport.ClickGenerate; Advance 2000; Fire])
                         _ (js "/reports/preview") (js "Q4 report")
                         eq_refl (or_introl eq_refl)))).
Defined.

(** X7.  A click on a suggestion is delivered for the four suggestions and
    replaces the prompt by the suggestion; on a page that is not generating
    it leaves the generate button enabled, whatever the prompt was before,
    and it touches neither the timers nor the navigation. *)
Theorem CreateReport_suggestion_enables
  (l l' : CreateReport.page) (index : nat)
  (Hstep : CreateReport.step (UI (CreateReport.ClickSuggestion index)) l = Some l') :
  (index < 4)%nat
  /\ nth_error CreateReport.suggestions index = Some (CreateReport.prompt (ui l'))
  /\ CreateReport.generateDisabled (ui l') = CreateReport.isGenerating (ui l)
  /\ timers l' = timers l
  /\ CreateReport.navigated (ui l') = CreateReport.navigated (ui l).
Proof.
  unfold CreateReport.step in Hstep. simpl in Hstep.
  destruct index as [|[|[|[|index]]]]; simpl in Hstep;
    try (destruct index; discriminate Hstep);
    injection Hstep as <-;
    (split; [lia|]); (split; [reflexivity|]);
    (split; [|split; reflexivity]);
    unfold CreateReport.generateDisabled; simpl; reflexivity.
Qed.

Lemma CreateReport_suggestion_enables_witness :
  CreateReport.step (UI (CreateReport.ClickSuggestion 2)) blankPage
  = Some (mkLoop
            (CreateReport.mkState
               (js "Analyze customer satisfaction survey results and identify improvement areas")
               false [])
            5%Z [] [])
  /\ (2 < 4)%nat.
Proof.
  split; [reflexivity|].
  exact (proj1 (CreateReport_suggestion_enables blankPage _ 2 eq_refl)).
Defined.

(* ================================================================== *)
(** ** The header, the button and the tables of the preview *)
(* ================================================================== *)

Lemma slice_from_start {A} (xs : list A) (n : Z) :
  (0 <= n)%Z -> slice xs 0 (Some n) = firstn (Z.to_nat n) xs.
Proof.
  intros Hn. unfold slice, relativeIndex.
  replace (0 <? 0)%Z with false by reflexivity.
  replace (n <? 0)%Z with false by (symmetry; apply Z.ltb_ge; exact Hn).
  set (len := Z.of_nat (List.length xs)).
  assert (Hlen : (0 <= len)%Z) by apply Nat2Z.is_nonneg.
  rewrite (Z.min_l 0 len) by exact Hlen. simpl skipn. rewrite Z.sub_0_r.
  destruct (Z.le_gt_cases n len) as [Hle | Hgt].
  - now rewrite Z.min_l.
  - rewrite Z.min_r by lia. unfold len. rewrite Nat2Z.id.
    rewrite firstn_all. symmetry. apply firstn_all2. lia.
Qed.

(** X8.  The header of the preview quotes at most the first 50 code units
    of a prompt that is never empty: the excerpt is a non-empty prefix of
    the prompt, of length min(50, length); and without a prompt in the
    location state, or with an empty one, the prompt is the default title. *)
Theorem ReportPreview_header_excerpt (statePrompt : option jsstring) :
  ReportPreview_prompt statePrompt <> []
  /\ ReportPreview_excerpt statePrompt <> []
  /\ (exists rest,
        ReportPreview_prompt statePrompt
        = (ReportPreview_excerpt statePrompt ++ rest)%list)
  /\ List.length (ReportPreview_excerpt statePrompt)
     = Nat.min 50 (List.length (ReportPreview_prompt statePrompt))
  /\ (statePrompt = None \/ statePrompt = Some [] ->
      ReportPreview_prompt statePrompt = js "Q4 2024 Enterprise Performance Analysis")
  /\ (forall p, statePrompt = Some p -> p <> [] -> ReportPreview_prompt statePrompt = p).
Proof.
  assert (Hne : ReportPreview_prompt statePrompt <> []).
  { unfold ReportPreview_prompt, orElse.
    destruct statePrompt as [[|c p]|]; simpl; discriminate. }
  unfold ReportPreview_excerpt. rewrite slice_from_start by lia.
  change (Z.to_nat 50) with 50%nat.
  split; [exact Hne|]. split; [|split; [|split; [|split]]].
  - destruct (ReportPreview_prompt statePrompt); [contradiction | discriminate].
  - exists (skipn 50 (ReportPreview_prompt statePrompt)).
    symmetry. apply firstn_skipn.
  - apply length_firstn.
  - intros [-> | ->]; reflexivity.
  - intros p -> Hp. destruct p; [contradiction | reflexivity].
Qed.

(** X9.  In every state a session of the preview page can reach, the face
    of the publish button tells the state of the publication: the spinner
    is shown exactly while the one operation is in flight, the check mark
    and the label 'Published' exactly once the publication is done, and the
    button takes a click exactly when it shows the share icon. *)
Theorem ReportPreview_button_face
  (es : list (event ReportPreview.action)) (l : ReportPreview.page)
  (Hrun : ReportPreview.run es ReportPreview.init = Some l) :
  (ReportPreview_icon (ui l) = Loader2 <-> inFlight l = 1%nat)
  /\ (ReportPreview_icon (ui l) = Check <-> promises l = [Fulfilled])
  /\ (ReportPreview_label (ui l) = js "Published" <-> ReportPreview_icon (ui l) = Check)
  /\ (ReportPreview_icon (ui l) = Share2
      <-> ReportPreview.step (UI ReportPreview.ClickPublish) l <> None).
Proof.
  unfold inFlight, ReportPreview.step. simpl.
  destruct (ReportPreview_reachable_inv _ _ Hrun)
    as [(_ & -> & -> & ->) | [(_ & -> & (d & ->) & ->) | (_ & -> & -> & ->)]];
    simpl; repeat split; intros H; try discriminate; try reflexivity;
    try (exfalso; now apply H).
Qed.

Lemma ReportPreview_button_face_witness :
  ReportPreview.run publishedSession ReportPreview.init = Some publishedPage
  /\ ReportPreview_icon (ui publishedPage) = Check.
Proof.
  split; [reflexivity|].
  exact (proj2 (proj1 (proj2 (ReportPreview_button_face publishedSession publishedPage
                                eq_refl))) eq_refl).
Defined.

Lemma renderCells_from (row : list (jsstring * jsstring)) :
  forall k,
  map ReportPreview.cell_key (ReportPreview.renderCells k row) = map fst row
  /\ map ReportPreview.cell_text (ReportPreview.renderCells k row) = map snd row
  /\ forall i cell, nth_error (ReportPreview.renderCells k row) i = Some cell ->
     ReportPreview.cell_className cell
     = ReportPreview.cellClassName (k + i) (ReportPreview.cell_text cell).
Proof.
  induction row as [|[key value] row IH]; intros k; simpl.
  - repeat split. intros [|i] cell H; discriminate.
  - destruct (IH (S k)) as (Hk & Ht & Hc). rewrite Hk, Ht.
    repeat split. intros [|i] cell H; simpl in H.
    + injection H as <-. simpl. now rewrite Nat.add_0_r.
    + rewrite Nat.add_succ_r. now apply Hc.
Qed.

(** X10.  A table of the preview shows the data as they are: its headings
    are the keys of the first row, it has one line for each row of the data,
    in order, and a line shows the values of its row, in order, each under
    the class computed from its column and its own text; so a line stands
    under the headings exactly when its row has the keys of the first row. *)
Theorem ReportPreview_table_faithful (section : ReportSection)
  (first : list (jsstring * jsstring)) (rest : list (list (jsstring * jsstring)))
  (Htype : section_type section = js "table")
  (Hdata : section_data section = Some (first :: rest)) :
  exists rows,
    ReportPreview.renderBody section = Some (ReportPreview.TableBody (map fst first) rows)
    /\ map (map ReportPreview.cell_text) rows = map (map snd) (first :: rest)
    /\ map (map ReportPreview.cell_key) rows = map (map fst) (first :: rest)
    /\ (forall i cells j cell,
          nth_error rows i = Some cells -> nth_error cells j = Some cell ->
          ReportPreview.cell_className cell
          = ReportPreview.cellClassName j (ReportPreview.cell_text cell))
    /\ (forall i cells row,
          nth_error rows i = Some cells -> nth_error (first :: rest) i = Some row ->
          (map ReportPreview.cell_key cells = map fst first <-> map fst row = map fst first)).
Proof.
  exists (map (ReportPreview.renderCells 0) (first :: rest)).
  assert (Hkeys : forall data,
             map (map ReportPreview.cell_key) (map (ReportPreview.renderCells 0) data)
             = map (map fst) data).
  { intros data. rewrite map_map. apply map_ext. intros row.
    apply (renderCells_from row 0). }
  split; [|split; [|split; [|split]]].
  - unfold ReportPreview.renderBody, ReportPreview.isTable.
    rewrite Htype, Hdata. reflexivity.
  - rewrite map_map. apply map_ext. intros row. apply (renderCells_from row 0).
  - apply Hkeys.
  - intros i cells j cell Hi Hj. rewrite nth_error_map in Hi.
    destruct (nth_error (first :: rest) i) as [row|]; [|discriminate].
    injection Hi as <-. exact (proj2 (proj2 (renderCells_from row 0)) j cell Hj).
  - intros i cells row Hi Hrow. rewrite nth_error_map, Hrow in Hi.
    injection Hi as <-. now rewrite (proj1 (renderCells_from row 0)).
Qed.

Lemma ReportPreview_table_faithful_witness :
  section_type (mkSection (js "s1") (js "Key Metrics") (js "table") []
                  (Some [[(js "Metric", js "Revenue"); (js "Change", js "+12%")]]))
  = js "table"
  /\ exists rows,
       ReportPreview.renderBody
         (mkSection (js "s1") (js "Key Metrics") (js "table") []
            (Some [[(js "Metric", js "Revenue"); (js "Change", js "+12%")]]))
       = Some (ReportPreview.TableBody [js "Metric"; js "Change"] rows).
Proof.
  split; [reflexivity|].
  destruct (ReportPreview_table_faithful
              (mkSection (js "s1") (js "Key Metrics") (js "table") []
                 (Some [[(js "Metric", js "Revenue"); (js "Change", js "+12%")]]))
              [(js "Metric", js "Revenue"); (js "Change", js "+12%")] []
              eq_refl eq_refl) as (rows & H & _).
  exists rows. exact H.
Defined.

(** X11.  The class of a table cell: the emphasis 'font-medium' is on the
    first column and on no other; the colour 'text-success' is on the cells
    whose text starts with '+' and on no other, 'text-destructive' on those
    whose text starts with '-' and on no other. *)
Theorem ReportPreview_cell_classes (cellIndex : nat) (value : jsstring) :
  includes (ReportPreview.cellClassName cellIndex value) (js "font-medium")
  = Nat.eqb cellIndex 0
  /\ includes (ReportPreview.cellClassName cellIndex value) (js "text-success")
     = startsWith value (js "+")
  /\ includes (ReportPreview.cellClassName cellIndex value) (js "text-destructive")
     = startsWith value (js "-").
Proof.
  unfold ReportPreview.cellClassName.
  change (js "+") with [43]. change (js "-") with [45].
  destruct (Nat.eqb cellIndex 0); destruct value as [|c value];
    try (vm_compute; repeat split; reflexivity);
    cbn [startsWith]; rewrite !andb_true_r;
    destruct (43 =? c) eqn:Ep; destruct (45 =? c) eqn:Em;
    try (apply N.eqb_eq in Ep; apply N.eqb_eq in Em; congruence);
    vm_compute; repeat split; reflexivity.
Qed.

Lemma Array_map_from_total_mapi {A B} (g : A -> nat -> option B) (f : A -> nat -> B)
  (xs : list A) :
  (forall x i, g x i = Some (f x i)) ->
  forall k, Array_map_from g k xs = Some (Array_mapi_from f k xs).
Proof.
  intros H. induction xs as [|x xs IH]; intros k; simpl; [reflexivity|].
  now rewrite H, IH.
Qed.

Lemma separators_all_but_last (n : nat) :
  map (fun j => Nat.ltb (j + 1) (S n)) (seq 0 (S n)) = (repeat true n ++ [false])%list.
Proof.
  rewrite <- all_but_last. apply map_ext_in. intros j Hj.
  apply in_seq in Hj. simpl. rewrite Nat.sub_0_r.
  destruct (Nat.eqb_spec j n) as [-> | Hne].
  - simpl. apply Nat.ltb_ge. lia.
  - simpl. apply Nat.ltb_lt. lia.
Qed.

(** X12.  The citations are always drawn (the render of the list does not
    throw): one item for each citation, numbered 1, 2, ..., n in the order
    of the report, with a separator after every item but the last; an empty
    list of citations draws nothing. *)
Theorem ReportPreview_citations_numbered (report : GeneratedReport) :
  exists items,
    ReportPreview.renderCitations report = Some items
    /\ map ReportPreview.item_key items = map citation_id (citations report)
    /\ map ReportPreview.item_number items = seq 1 (List.length (citations report))
    /\ (citations report = [] -> items = [])
    /\ (citations report <> [] ->
        map ReportPreview.item_separator items
        = (repeat true (List.length (citations report) - 1) ++ [false])%list).
Proof.
  set (n := List.length (citations report)).
  set (f := fun (citation : Citation) (index : nat) =>
              ReportPreview.mkItem (citation_id citation) (index + 1)
                (if truthyOpt (citation_url citation) then citation_url citation else None)
                (citation_source citation) (citation_excerpt citation)
                (Nat.ltb (index + 1) n)).
  exists (Array_mapi_from f 0 (citations report)).
  split; [|split; [|split; [|split]]].
  - unfold ReportPreview.renderCitations, Array_map.
    now apply Array_map_from_total_mapi.
  - now apply Array_mapi_from_map.
  - rewrite (Array_mapi_from_index f ReportPreview.item_number (fun j => j + 1)%nat)
      by reflexivity.
    fold n. rewrite <- seq_shift. apply map_ext. intros j. lia.
  - intros ->. reflexivity.
  - intros Hne.
    rewrite (Array_mapi_from_index f ReportPreview.item_separator
               (fun j => Nat.ltb (j + 1) n)) by reflexivity.
    fold n. destruct n as [|m] eqn:En.
    + apply length_zero_iff_nil in En. contradiction.
    + rewrite separators_all_but_last. simpl. now rewrite Nat.sub_0_r.
Qed.

(* ================================================================== *)
(** ** The save button *)
(* ================================================================== *)

Lemma pick_filter_length {Eff : Type} (f : task Eff -> bool) (ts : list (task Eff)) :
  forall m rest, pick ts = Some (m, rest) ->
  List.length (filter f ts)
  = ((if f m then 1 else 0) + List.length (filter f rest))%nat.
Proof.
  induction ts as [|a ts IH]; intros m rest Hp; simpl in Hp; [discriminate|].
  destruct (pick ts) as [[m' rest']|] eqn:Hts.
  - specialize (IH m' rest' eq_refl).
    destruct (due a <=? due m')%Z; injection Hp as <- <-; simpl.
    + destruct (f a); simpl; lia.
    + destruct (f a); simpl; rewrite IH; destruct (f m'); simpl; lia.
  - injection Hp as <- <-. destruct ts as [|b ts].
    + simpl. destruct (f a); reflexivity.
    + simpl in Hts. destruct (pick ts) as [[m' rest']|]; [|discriminate].
      destruct (due b <=? due m')%Z; discriminate.
Qed.

Lemma Settings_inv_saves_step (e : event Settings.action) (l l' : Settings.page) :
  Settings_inv_saves l -> Settings.step e l = Some l' -> Settings_inv_saves l'.
Proof.
  intros (Ht & Hn & Hs) Hstep. unfold Settings_inv_saves, Settings_pendingSaves in *.
  destruct e as [[] | dt | ].
  - apply Settings_click in Hstep as (Hg & ->). simpl. rewrite Hg in Hn.
    split; [|split].
    + apply Forall_app. split; [exact Ht|]. constructor; [|constructor]. left. now split.
    + rewrite filter_app, length_app, Hn. reflexivity.
    + intros H. destruct (Hs H) as (t & Hin & Hb). exists t.
      split; [apply in_or_app; now left | exact Hb].
  - apply advance_some in Hstep as [_ ->]. simpl. auto.
  - unfold Settings.step in Hstep. simpl in Hstep. unfold fire in Hstep.
    destruct (pick (timers l)) as [[m rest]|] eqn:Hpick; [|discriminate].
    destruct (due m <=? clock l)%Z; [|discriminate]. injection Hstep as <-.
    assert (Hrest : Forall Settings_task rest).
    { rewrite Forall_forall in *. intros t Hin. apply Ht.
      apply (pick_In _ _ _ Hpick). now right. }
    assert (Hm : Settings_task m).
    { rewrite Forall_forall in Ht. apply Ht. apply (pick_In _ _ _ Hpick). now left. }
    rewrite (pick_filter_length (fun t => settles t) _ _ _ Hpick) in Hn.
    destruct Hm as [[Hb Hse] | [Hb Hse]]; rewrite Hb, Hse in *.
    + rewrite Settings_exec_resume. simpl. split; [|split].
      * apply Forall_app. split; [exact Hrest|]. constructor; [|constructor].
        right. now split.
      * rewrite filter_app, length_app. simpl.
        destruct (Settings.isSaving (ui l)); simpl in Hn; lia.
      * intros _. eexists. split; [apply in_or_app; right; now left | reflexivity].
    + simpl. split; [exact Hrest|]. split; [exact Hn | discriminate].
Qed.

Lemma Settings_inv_saves_run (es : list (event Settings.action)) :
  forall l l' : Settings.page,
  Settings_inv_saves l -> Settings.run es l = Some l' -> Settings_inv_saves l'.
Proof.
  induction es as [|e es IH]; intros l l' Hinv Hrun.
  - injection Hrun as <-. exact Hinv.
  - unfold Settings.run in Hrun. simpl in Hrun.
    destruct (EventLoop.step Settings.perform Settings.dispatch e l)
      as [l1|] eqn:Hstep; [|discriminate].
    apply (IH l1 l'); [|exact Hrun].
    now apply (Settings_inv_saves_step e l).
Qed.

(** X13.  In every state a session of the settings page can reach: at most
    one save is in flight, exactly one while the button reads 'Saving...'
    (and is disabled) and none otherwise; while the button reads 'Saved' a
    timer that will take the mark away is still set; so a page with no timer
    left reads 'Save Changes'. *)
Theorem Settings_button_tracks_saves
  (es : list (event Settings.action)) (l : Settings.page)
  (Hrun : Settings.run es Settings.init = Some l) :
  (Settings_pendingSaves l <= 1)%nat
  /\ (Settings_face (ui l) = Saving <-> Settings_pendingSaves l = 1%nat)
  /\ (Settings_face (ui l) = Saving
      <-> Settings.step (UI Settings.ClickSave) l = None)
  /\ (Settings_face (ui l) = SavedMark ->
      exists t, In t (timers l) /\ body t = [Do (Settings.SetSaved false)]
                /\ settles t = false)
  /\ (timers l = [] -> Settings_face (ui l) = SaveChanges).
Proof.
  assert (Hinv : Settings_inv_saves l).
  { apply (Settings_inv_saves_run es Settings.init); [|exact Hrun].
    repeat split; [constructor | discriminate]. }
  destruct Hinv as (Ht & Hn & Hs).
  unfold Settings_face, Settings.step. simpl. unfold Settings.saveDisabled.
  destruct (Settings.isSaving (ui l)) eqn:Hg; rewrite Hn.
  - repeat split; try discriminate; try reflexivity; try lia.
    intros E. unfold Settings_pendingSaves in Hn. rewrite E in Hn. discriminate.
  - repeat split; try discriminate; try lia.
    + destruct (Settings.saved (ui l)); discriminate.
    + destruct (Settings.saved (ui l)); discriminate.
    + destruct (Settings.saved (ui l)) eqn:Hsv; [|discriminate]. intros _.
      destruct (Hs eq_refl) as (t & Hin & Hb). exists t.
      split; [exact Hin|]. split; [exact Hb|].
      rewrite Forall_forall in Ht. destruct (Ht t Hin) as [[Hb' _] | [_ Hse]];
        [|exact Hse].
      rewrite Hb in Hb'. discriminate.
    + intros E. destruct (Settings.saved (ui l)) eqn:Hsv; [|reflexivity].
      destruct (Hs eq_refl) as (t & Hin & _). rewrite E in Hin. contradiction.
Qed.

Lemma Settings_button_tracks_saves_witness :
  Settings.run savedSession Settings.init = Some savedPage
  /\ exists t, In t (timers savedPage) /\ body t = [Do (Settings.SetSaved false)]
               /\ settles t = false.
Proof.
  split; [reflexivity|].
  exact (proj1 (proj2 (proj2 (proj2
    (Settings_button_tracks_saves savedSession savedPage eq_refl)))) eq_refl).
Defined.

(** X14.  A save on a settings page with no timer left: 1000 ms after the
    click the button reads 'Saved'; the mark stays for 2000 ms, no timer
    firing before; then its timer fires and the page is as it was before
    the click, with one more fulfilled promise and no timer left. *)
Theorem Settings_save_round_trip
  (es : list (event Settings.action)) (l : Settings.page) (dt : Z)
  (Hrun : Settings.run es Settings.init = Some l)
  (Hquiet : timers l = [])
  (Hdt : (0 <= dt < 2000)%Z) :
  (exists l2,
      Settings.run [UI Settings.ClickSave; Advance 1000; Fire; Advance dt] l = Some l2
      /\ Settings_face (ui l2) = SavedMark
      /\ Settings.step Fire l2 = None)
  /\ Settings.run [UI Settings.ClickSave; Advance 1000; Fire; Advance 2000; Fire] l
     = Some (mkLoop (ui l) (clock l + 1000 + 2000) [] (promises l ++ [Fulfilled])).
Proof.
  destruct (Settings_button_tracks_saves _ _ Hrun) as (_ & _ & _ & _ & Hface).
  specialize (Hface Hquiet). unfold Settings_face in Hface.
  destruct l as [[saving sv] c ts ps]. simpl in *. subst ts.
  destruct saving; [discriminate|]. destruct sv; [discriminate|].
  unfold Settings.run, Settings.step. simpl. unfold fire. simpl.
  rewrite Z.leb_refl. simpl.
  split.
  - unfold advance. replace (0 <=? dt)%Z with true by (symmetry; apply Z.leb_le; lia).
    eexists. split; [reflexivity|]. split; [reflexivity|].
    unfold fire. simpl.
    replace (c + 1000 + 2000 <=? c + 1000 + dt)%Z with false
      by (symmetry; apply Z.leb_gt; lia).
    reflexivity.
  - unfold fire. simpl. rewrite Z.leb_refl. reflexivity.
Qed.

Lemma Settings_save_round_trip_witness :
  Settings.run [] Settings.init = Some Settings.init
  /\ timers Settings.init = []
  /\ (0 <= 500 < 2000)%Z
  /\ Settings.run [UI Settings.ClickSave; Advance 1000; Fire; Advance 2000; Fire]
       Settings.init
     = Some (mkLoop (ui Settings.init) (clock Settings.init + 1000 + 2000) []
               (promises Settings.init ++ [Fulfilled])).
Proof.
  split; [reflexivity|]. split; [reflexivity|]. split; [lia|].
  exact (proj2 (Settings_save_round_trip [] Settings.init 500 eq_refl eq_refl
                  ltac:(lia))).
Defined.

(* ================================================================== *)
(** ** The dashboard, the sidebar and the redirects *)
(* ================================================================== *)

(** X15.  The dashboard lists the first reports of the fixture and at most
    three of them: its list is a prefix of the fixture, of length
    min(3, length), the whole fixture when that has three reports or fewer,
    empty only when the fixture is. *)
Theorem Dashboard_recent_reports (mockReports : list Report) :
  (exists rest, mockReports = (DashboardPage.recentReports mockReports ++ rest)%list)
  /\ List.length (DashboardPage.recentReports mockReports)
     = Nat.min 3 (List.length mockReports)
  /\ ((List.length mockReports <= 3)%nat ->
      DashboardPage.recentReports mockReports = mockReports)
  /\ (DashboardPage.recentReports mockReports = [] <-> mockReports = []).
Proof.
  unfold DashboardPage.recentReports. rewrite slice_from_start by lia.
  change (Z.to_nat 3) with 3%nat.
  split; [|split; [|split]].
  - exists (skipn 3 mockReports). symmetry. apply firstn_skipn.
  - apply length_firstn.
  - intros H. now apply firstn_all2.
  - destruct mockReports; simpl; split; congruence.
Qed.

Lemma split_head (sep : N) (s : jsstring) :
  exists w ws,
    split sep s = w :: ws
    /\ ~ In sep w
    /\ (s = w \/ exists rest, s = (w ++ sep :: rest)%list).
Proof.
  induction s as [|c s (w & ws & Hs & Hw & Hrest)]; simpl.
  - exists [], []. repeat split; auto.
  - destruct (c =? sep) eqn:E.
    + apply N.eqb_eq in E. subst c. exists [], (split sep s).
      repeat split; auto. right. now exists s.
    + apply N.eqb_neq in E. rewrite Hs. exists (c :: w), ws.
      split; [reflexivity|]. split.
      * intros [H | H]; [congruence | contradiction].
      * destruct Hrest as [-> | (rest & ->)]; [now left | right; now exists rest].
Qed.

(** X16.  The name in the greeting of the dashboard is never empty and never
    holds a space: it is the user's name up to its first space, and 'User'
    when there is no user, when the name is empty and when the name starts
    with a space. *)
Theorem Dashboard_welcome_name (auth : AuthContext) :
  DashboardPage.welcomeName auth <> []
  /\ ~ In 32 (DashboardPage.welcomeName auth)
  /\ (user auth = None -> DashboardPage.welcomeName auth = js "User")
  /\ (forall u, user auth = Some u ->
      (DashboardPage.welcomeName auth = js "User"
       /\ (user_name u = [] \/ exists rest, user_name u = 32 :: rest))
      \/ (DashboardPage.welcomeName auth = user_name u)
      \/ (exists rest,
            user_name u = (DashboardPage.welcomeName auth ++ 32 :: rest)%list)).
Proof.
  unfold DashboardPage.welcomeName.
  assert (Huser : js "User" <> [] /\ ~ In 32 (js "User")).
  { split; [discriminate|]. vm_compute. intuition discriminate. }
  destruct (user auth) as [u|]; simpl.
  - destruct (split_head 32 (user_name u)) as (w & ws & Hs & Hw & Hrest).
    rewrite Hs. simpl. destruct w as [|c w]; simpl.
    + split; [apply Huser|]. split; [apply Huser|]. split; [discriminate|].
      intros u' E. injection E as <-. left. split; [reflexivity|].
      destruct Hrest as [-> | (rest & ->)]; [now left | right; now exists rest].
    + split; [discriminate|]. split; [exact Hw|]. split; [discriminate|].
      intros u' E. injection E as <-. right.
      destruct Hrest as [-> | (rest & ->)]; [now left | right; now exists rest].
  - split; [apply Huser|]. split; [apply Huser|]. split; [reflexivity|].
    intros u E. discriminate.
Qed.


Lemma at_most_one_active (pathname : jsstring) (items : list (jsstring * jsstring)) :
  NoDup (map fst items) ->
  (List.length (filter (Sidebar.isActive pathname) items) <= 1)%nat
  /\ (List.length (filter (Sidebar.isActive pathname) items) = 1%nat
      <-> In pathname (map fst items)).
Proof.
  induction items as [|[path label] items IH]; simpl; intros Hnd.
  - split; [lia|]. split; [discriminate | contradiction].
  - inversion Hnd as [|? ? Hnotin Hnd']; subst.
    destruct (IH Hnd') as [Hle Hiff].
    change (Sidebar.isActive pathname (path, label)) with (strictEq pathname path).
    destruct (strictEq pathname path) eqn:E.
    + apply strictEq_spec in E. subst path.
      assert (Hz : List.length (filter (Sidebar.isActive pathname) items) = 0%nat).
      { destruct (List.length (filter (Sidebar.isActive pathname) items)) as [|[|n]] eqn:El;
          [reflexivity | | lia].
        exfalso. apply Hnotin. now apply Hiff. }
      simpl. rewrite Hz. split; [lia|]. split; [now left | reflexivity].
    + split; [exact Hle|]. rewrite Hiff. split; [now right|].
      intros [H | H]; [|exact H]. subst path.
      rewrite (proj2 (strictEq_spec pathname pathname) eq_refl) in E. discriminate.
Qed.

(** X18.  The sidebar highlights at most one of its five entries, and one
    exactly when the current path is the path of an entry; on any other
    path, such as [/reports/preview], no entry is highlighted. *)
Theorem Sidebar_one_active (pathname : jsstring) :
  (List.length (filter (Sidebar.isActive pathname) Sidebar.navItems) <= 1)%nat
  /\ (List.length (filter (Sidebar.isActive pathname) Sidebar.navItems) = 1%nat
      <-> In pathname (map fst Sidebar.navItems))
  /\ (~ In pathname (map fst Sidebar.navItems) ->
      filter (Sidebar.isActive pathname) Sidebar.navItems = [])
  /\ ~ In (js "/reports/preview") (map fst Sidebar.navItems).
Proof.
  assert (Hnd : NoDup (map fst Sidebar.navItems)).
  { vm_compute. repeat constructor; simpl; intuition discriminate. }
  destruct (at_most_one_active pathname Sidebar.navItems Hnd) as [Hle Hiff].
  split; [exact Hle|]. split; [exact Hiff|]. split.
  - intros Hnot.
    destruct (filter (Sidebar.isActive pathname) Sidebar.navItems) as [|x [|y r]] eqn:E;
      [reflexivity | | simpl in Hle; lia].
    exfalso. apply Hnot, Hiff. reflexivity.
  - vm_compute. intuition discriminate.
Qed.

(** X19.  The redirects of the application end after one step: when a routed
    page answers with a redirect, it replaces the history entry, its target
    is the sign-in page or the dashboard, and with the same session that
    target draws its content instead of redirecting again; a signed-in user
    is never sent to [/auth] and a signed-out one never to [/dashboard]. *)
Theorem redirect_ends {C : Type} (r : Route) (auth : AuthContext) (content : C)
  (to : jsstring) (replace : bool)
  (Hredirect : renderRoute r auth content = NavigateTo to replace) :
  replace = true
  /\ (to = js "/auth" /\ isAuthenticated auth = false /\ wrapped r = true
      \/ to = js "/dashboard" /\ isAuthenticated auth = true /\ r = Auth)
  /\ exists r', redirectTarget to = Some r'
                /\ forall content' : C,
                   renderRoute r' auth content' = Shell content'
                   \/ renderRoute r' auth content' = Bare content'.
Proof.
  destruct r; simpl in Hredirect; unfold AppLayout in Hredirect;
    destruct (isAuthenticated auth) eqn:Ha; simpl in Hredirect;
    try discriminate Hredirect;
    injection Hredirect as <- <-;
    (split; [reflexivity|]); (split; [tauto|]).
  all: try (exists Auth; split; [reflexivity|]; intros c; simpl; rewrite Ha; now right).
  exists Dashboard. split; [reflexivity|]. intros c. simpl. unfold AppLayout.
  rewrite Ha. now left.
Qed.

Lemma redirect_ends_witness :
  renderRoute SettingsPage (mkAuth None false false) demoReports
  = NavigateTo (js "/auth") true
  /\ redirectTarget (js "/auth") = Some Auth.
Proof.
  split; [reflexivity|].
  destruct (redirect_ends SettingsPage (mkAuth None false false) demoReports
              (js "/auth") true eq_refl) as (_ & _ & r' & Hr & _).
  reflexivity.
Defined.

(* ================================================================== *)
(** ** When the preview throws, when the generate button takes a click *)
(* ================================================================== *)

Lemma drawable_or_not (xs : list ReportSection) :
  Forall drawable xs
  \/ exists section, In section xs
                     /\ ReportPreview.isTable section = true
                     /\ section_data section = Some [].
Proof.
  induction xs as [|s xs [IH | (b & Hin & Hb)]].
  - left. constructor.
  - destruct (ReportPreview.isTable s) eqn:Ht.
    + destruct (section_data s) as [[|first rest]|] eqn:Hd.
      * right. exists s. split; [now left | now split].
      * left. constructor; [|exact IH]. unfold drawable. rewrite Hd. discriminate.
      * left. constructor; [|exact IH]. unfold drawable. rewrite Hd. discriminate.
    + left. constructor; [|exact IH]. unfold drawable. rewrite Ht. discriminate.
  - right. exists b. split; [now right | exact Hb].
Qed.

(** X20.  The sections of the preview fail to render in one case only: the
    render throws exactly when the report has a section of type 'table'
    whose [data] is an array with no row; otherwise there is one card for
    each section. *)
Theorem ReportPreview_throws_exactly (report : GeneratedReport) :
  (ReportPreview.renderSections report = None
   <-> exists section,
         In section (sections report)
         /\ section_type section = js "table"
         /\ section_data section = Some [])
  /\ (forall cards, ReportPreview.renderSections report = Some cards ->
      map ReportPreview.card_key cards = map section_id (sections report)
      /\ map ReportPreview.card_title cards = map section_title (sections report)).
Proof.
  split.
  - split.
    + intros Hnone.
      destruct (drawable_or_not (sections report)) as [Hall | (s & Hin & Ht & Hd)].
      * destruct (renderSections_drawable report Hall) as (cards & Hsome & _).
        congruence.
      * exists s. split; [exact Hin|]. split; [|exact Hd].
        unfold ReportPreview.isTable in Ht. apply andb_true_iff in Ht as [Ht _].
        now apply strictEq_spec.
    + intros (s & Hin & Ht & Hd). apply (renderSections_throws report s Hin); [|exact Hd].
      unfold ReportPreview.isTable. rewrite Hd, andb_true_r. now apply strictEq_spec.
  - unfold ReportPreview.renderSections, Array_map. generalize 0%nat.
    induction (sections report) as [|s xs IH]; intros k cards H; simpl in H.
    + injection H as <-. now split.
    + unfold ReportPreview.renderSection at 1 in H.
      destruct (ReportPreview.renderBody s); [|discriminate].
      destruct (Array_map_from ReportPreview.renderSection (S k) xs) as [ys|] eqn:E;
        [|discriminate].
      injection H as <-. destruct (IH _ _ E) as [Hk Ht]. simpl.
      now rewrite Hk, Ht.
Qed.

(** X21.  The generate button takes a click exactly when the prompt is not
    blank and no generation is pending; the click then starts exactly one
    operation, whose timer holds the prompt of that moment. *)
Theorem CreateReport_click_delivered (l : CreateReport.page) :
  (CreateReport.step (UI CreateReport.ClickGenerate) l <> None
   <-> ~ blank (CreateReport.prompt (ui l))
       /\ CreateReport.isGenerating (ui l) = false)
  /\ (forall l', CreateReport.step (UI CreateReport.ClickGenerate) l = Some l' ->
      timers l'
      = (timers l
         ++ [mkTask (clock l + 2000)
               (CreateReport.resume (CreateReport.prompt (ui l))) true])%list
      /\ CreateReport.prompt (ui l') = CreateReport.prompt (ui l)
      /\ CreateReport.navigated (ui l') = CreateReport.navigated (ui l)).
Proof.
  split.
  - unfold CreateReport.step. simpl. unfold CreateReport.generateDisabled.
    pose proof (truthy_trim_false_iff (CreateReport.prompt (ui l))) as Hb.
    destruct (truthy (trim (CreateReport.prompt (ui l))));
      destruct (CreateReport.isGenerating (ui l)); simpl; split.
    + intros H. exfalso. now apply H.
    + intros [_ E]. discriminate.
    + intros _. split; [|reflexivity]. intros B. apply Hb in B. discriminate.
    + discriminate.
    + intros H. exfalso. now apply H.
    + intros [H _]. exfalso. apply H. now apply Hb.
    + intros H. exfalso. now apply H.
    + intros [H _]. exfalso. apply H. now apply Hb.
  - intros l' Hclick. apply CreateReport_click in Hclick as (_ & _ & ->).
    simpl. auto.
Qed.
